(** * pySecMaster: the cross-source price validator

    A shallow embedding of [CrossValidate] from
    [pySecMaster/cross_validator.py]: the per-field weighted vote, the
    per-date assembly of the consensus rows and the delete-then-append
    write-back, together with the properties the design document states
    about them.

    Conventions.
    - A reported value and a consensus weight are numbers that the code
      only compares for equality (dictionary keys), adds and orders; they
      are integers here, added exactly.  Nothing below is about the
      rounding of sums of real-valued weights.  A cell of a DataFrame
      may also hold Python's [None]: [option value].
    - A [dict] is an association list in insertion order, which is the
      order Python iterates a dictionary in.
    - A [datetime] is a count of microseconds, [timedelta(days=n)] is
      [n * 86400000000].
    - The price table of the database is the list of its rows.
    - The progress messages, the pause after a windowed run and the
      thread pool of [main] are left out. *)

From Stdlib Require Import ZArith List String Bool Lia Permutation.
Import ListNotations.
Open Scope string_scope.
Open Scope list_scope.
Open Scope Z_scope.

(** ** Data *)

Abbreviation vendor_id := Z (only parsing).
Abbreviation value := Z (only parsing).
Abbreviation weight := Z (only parsing).
Abbreviation datetime := Z (only parsing).

(** One row of [daily_prices] / [minute_prices]; also one row of
    [tsid_prices_df] and of [consensus_price_df]. *)
Record price_row := mk_row {
  data_vendor_id : vendor_id;
  source : string;
  source_id : string;
  date : datetime;
  fields : string -> option value;
  updated_date : datetime
}.

(** One row of [source_weights_df]. *)
Record weight_row := mk_weight {
  w_data_vendor_id : vendor_id;
  consensus_weight : weight
}.

(** ** Python dictionaries, in insertion order *)

Module Dict.

Definition t := list (value * weight).

Fixpoint contains (k : value) (d : t) : bool :=
  match d with
  | [] => false
  | (k', _) :: r => if k' =? k then true else contains k r
  end.

(** [d[k]] for a key that is present; the code reads it only then. *)
Fixpoint getitem (k : value) (d : t) : weight :=
  match d with
  | [] => 0
  | (k', w) :: r => if k' =? k then w else getitem k r
  end.

(** [d[k] = w]: an existing key keeps its place, a new key goes last. *)
Fixpoint setitem (k : value) (w : weight) (d : t) : t :=
  match d with
  | [] => [(k, w)]
  | (k', w') :: r =>
      if k' =? k then (k', w) :: r else (k', w') :: setitem k w r
  end.

(** Truth value of a dictionary: non-empty. *)
Definition truthy (d : t) : bool :=
  match d with [] => false | _ :: _ => true end.

Definition keys (d : t) : list value := map fst d.

End Dict.

(** ** The vote for one field of one date (lines 173-222) *)

(** [source_weights_df.loc[source_weights_df['data_vendor_id'] == vid,
    'consensus_weight']]: the weights of the matching rows, in order. *)
Definition loc_consensus_weight (source_weights_df : list weight_row)
    (vid : vendor_id) : list weight :=
  map consensus_weight
      (filter (fun r => w_data_vendor_id r =? vid) source_weights_df).

(** [s.iloc[0]]; [None] stands for the [IndexError] of an empty Series. *)
Definition iloc0 (s : list weight) : option weight :=
  match s with
  | [] => None
  | w :: _ => Some w
  end.

(** [vid in source_id_exclude_list]. *)
Definition in_list (vid : vendor_id) (l : list vendor_id) : bool :=
  existsb (Z.eqb vid) l.

Section Vote.

Variable source_id_exclude_list : list vendor_id.
Variable source_weights_df : list weight_row.

(** The body of the loop over [field_data.iteritems()]: one
    [source_data = (data_vendor_id, value)] against the running
    [field_consensus].  Both branches of the [try] evaluate
    [source_weight.iloc[0]] before the dictionary is written, so an
    [IndexError] leaves the dictionary as it was. *)
Definition tally_source (field_consensus : Dict.t)
    (source_data : vendor_id * option value) : Dict.t :=
  if negb (in_list (fst source_data) source_id_exclude_list) then
    match snd source_data with
    | Some v =>
        let source_weight :=
          loc_consensus_weight source_weights_df (fst source_data) in
        let attempt :=
          if Dict.truthy field_consensus && Dict.contains v field_consensus
          then
            match iloc0 source_weight with
            | Some w =>
                Some (Dict.setitem v (Dict.getitem v field_consensus + w)
                                   field_consensus)
            | None => None
            end
          else
            match iloc0 source_weight with
            | Some w => Some (Dict.setitem v w field_consensus)
            | None => None
            end
        in
        match attempt with
        | Some d => d
        | None => field_consensus      (* except IndexError: pass *)
        end
    | None => field_consensus
    end
  else field_consensus.

(** The dictionary after the whole inner loop, from the empty one. *)
Definition field_consensus (field_data : list (vendor_id * option value))
    : Dict.t :=
  fold_left tally_source field_data [].

(** [max(items, key=operator.itemgetter(1))]: the first item whose
    weight no later item exceeds; Python replaces the running maximum
    only on a strictly greater key. *)
Fixpoint max_from (best : value * weight) (items : list (value * weight))
    : value * weight :=
  match items with
  | [] => best
  | x :: r => if snd x >? snd best then max_from x r else max_from best r
  end.

(** [None] stands for the [ValueError] of [max] on an empty sequence. *)
Definition py_max (items : list (value * weight))
    : option (value * weight) :=
  match items with
  | [] => None
  | x :: r => Some (max_from x r)
  end.

(** Lines 217-222. *)
Definition consensus_of (d : Dict.t) : value :=
  match py_max d with
  | Some kv => fst kv
  | None => -1
  end.

Definition consensus_value (field_data : list (vendor_id * option value))
    : value :=
  consensus_of (field_consensus field_data).

End Vote.

(** ** The consensus rows of one tsid (lines 116-242) *)

(** [Index.unique()]: the distinct labels in order of first appearance. *)
Fixpoint unique_from (seen : list Z) (l : list Z) : list Z :=
  match l with
  | [] => []
  | x :: r =>
      if in_list x seen then unique_from seen r
      else x :: unique_from (x :: seen) r
  end.

Definition unique (l : list Z) : list Z := unique_from [] l.

Definition timedelta_days (n : Z) : Z := n * 86400000000.

(** Truth value of [self.period]: [None] and [0] are false. *)
Definition truthy (period : option Z) : bool :=
  match period with
  | None => false
  | Some n => negb (n =? 0)
  end.

Definition days (period : option Z) : Z :=
  match period with
  | None => 0
  | Some n => n
  end.

(** What [validator] returns or raises. *)
Inductive result (A : Type) : Type :=
| Ok (a : A)
| NotImplementedError (table : string).

Arguments Ok {A} a.
Arguments NotImplementedError {A} table.

(** The columns of [consensus_price_df] without ['date'] (lines 131-140).
    [query_all_tsid_prices] lives in [utilities.database_queries], whose
    text is not at hand; the design document gives [tsid_prices_df] the
    same field columns, so these are also the rows of the transposed
    [period_df]. *)
Definition table_columns (table : string) : result (list string) :=
  if (table =? "daily_prices")%string then
    Ok ["open"; "high"; "low"; "close"; "volume"; "ex_dividend";
        "split_ratio"]
  else if (table =? "minute_prices")%string then
    Ok ["open"; "high"; "low"; "close"; "volume"]
  else NotImplementedError table.

(** [tsid_prices_df.xs(date, level='date')]. *)
Definition xs (d : datetime) (tsid_prices_df : list price_row)
    : list price_row :=
  filter (fun r => date r =? d) tsid_prices_df.

(** One row of [period_df.transpose()]: the field's value per vendor. *)
Definition field_data (period_df : list price_row) (field_index : string)
    : list (vendor_id * option value) :=
  map (fun r => (data_vendor_id r, fields r field_index)) period_df.

(** A cell of a row of [consensus_price_df]; a column that was never
    assigned is empty. *)
Fixpoint cell (assigned : list (string * value)) (column : string)
    : option value :=
  match assigned with
  | [] => None
  | (c, v) :: r => if (c =? column)%string then Some v else cell r column
  end.

(** The instance: what [__init__] stores and [validator] reads. *)
Record CrossValidate := mk_self {
  table : string;
  period : option Z;
  source_weights_df : list weight_row;
  source_id_exclude_list : list vendor_id
}.

(** The two readings of [datetime.now()] in one call of [validator]:
    line 127 and line 242. *)
Record clock := mk_clock {
  now_beg : datetime;
  now_updated : datetime
}.

(** The [WHERE] clause of [delete_query] (lines 254-265); [source='tsid']
    is fixed in both forms. *)
Record delete_query := mk_query {
  q_source_id : string;
  q_data_vendor_id : vendor_id;
  q_date_after : option datetime
}.

Definition where_clause (q : delete_query) (r : price_row) : bool :=
  (source_id r =? q_source_id q)%string
  && (source r =? "tsid")%string
  && (data_vendor_id r =? q_data_vendor_id q)
  && match q_date_after q with
     | Some b => date r >? b
     | None => true
     end.

(** The database as [validator] sees it: the rows of [self.table] and
    the calls made so far. *)
Inductive db_call : Type :=
| Delete (q : delete_query) (success : bool)
| Append (df : list price_row) (success : bool).

Record world := mk_world {
  rows : list price_row;
  calls : list db_call
}.

(** What the database answers during one call of [validator]: the status
    of the k-th delete and whether the append goes through. *)
Record outcomes := mk_outcomes {
  delete_succeeds : nat -> bool;
  append_succeeds : bool
}.

(** Modelled from the spec: [query_all_tsid_prices] of
    [utilities.database_queries], whose text is not at hand.  "Returns
    all stored rows keyed by (date, vendor_id) with field columns, for
    one instrument": the stored rows of the tsid, in stored order. *)
Definition query_all_tsid_prices (tsid : string) (w : world)
    : list price_row :=
  filter (fun r => (source_id r =? tsid)%string && (source r =? "tsid")%string)
         (rows w).

(** Modelled from the spec: [delete_sql_table_rows] of
    [utilities.database_queries], whose text is not at hand.
    "delete_rows(...) -> success|failure": on success the rows the query
    selects are gone, on failure the table is as it was. *)
Definition delete_sql_table_rows (success : bool) (q : delete_query)
    (w : world) : bool * world :=
  (success,
   {| rows := if success
              then filter (fun r => negb (where_clause q r)) (rows w)
              else rows w;
      calls := calls w ++ [Delete q success] |}).

(** Modelled from the spec: [df_to_sql] of
    [utilities.database_queries], whose text is not at hand.
    "append_rows(table, records) -> success|failure", called with
    [exists='append']: on success the records follow the stored rows. *)
Definition df_to_sql (success : bool) (df : list price_row) (w : world)
    : world :=
  {| rows := if success then rows w ++ df else rows w;
     calls := calls w ++ [Append df success] |}.

Section Validator.

(** [query_data_vendor_id(name=...)] of [utilities.database_queries]:
    the id the database stores for a vendor name. *)
Variable query_data_vendor_id : string -> vendor_id.

(** Lines 68-79 of [__init__]. *)
Definition init (table : string) (period : option Z)
    (weights : list weight_row) : CrossValidate :=
  {| table := table;
     period := period;
     source_weights_df := weights;
     source_id_exclude_list :=
       map query_data_vendor_id ["pySecMaster_Consensus"] |}.

Variable self : CrossValidate.

(** Line 127. *)
Definition beg_date (clk : clock) : datetime :=
  now_beg clk - timedelta_days (days (period self)).

(** Lines 122-128. *)
Definition unique_dates (clk : clock) (tsid_prices_df : list price_row)
    : list datetime :=
  let unique_dates := unique (map date tsid_prices_df) in
  if truthy (period self)
  then filter (fun d => d >? beg_date clk) unique_dates
  else unique_dates.

(** Lines 120-121. *)
Definition unique_sources (tsid_prices_df : list price_row)
    : list vendor_id :=
  unique (map data_vendor_id tsid_prices_df).

(** The cells the loop over [period_df.iterrows()] assigns for one
    date (lines 168-223). *)
Definition consensus_cells (columns : list string)
    (period_df : list price_row) : list (string * value) :=
  map (fun field_index =>
         (field_index,
          consensus_value (source_id_exclude_list self)
                          (source_weights_df self)
                          (field_data period_df field_index)))
      columns.

(** [consensus_price_df] as it is handed to [df_to_sql] (lines
    146-242): one row per date of [unique_dates]. *)
Definition consensus_price_df (clk : clock) (tsid : string)
    (columns : list string) (tsid_prices_df : list price_row)
    : list price_row :=
  map (fun d =>
         {| data_vendor_id := query_data_vendor_id "pySecMaster_Consensus";
            source := "tsid";
            source_id := tsid;
            date := d;
            fields := cell (consensus_cells columns (xs d tsid_prices_df));
            updated_date := now_updated clk |})
      (unique_dates clk tsid_prices_df).

(** Lines 251-265. *)
Definition delete_query_of (clk : clock) (tsid : string) : delete_query :=
  let validator_id := query_data_vendor_id "pySecMaster_Consensus" in
  if truthy (period self)
  then {| q_source_id := tsid; q_data_vendor_id := validator_id;
          q_date_after := Some (beg_date clk) |}
  else {| q_source_id := tsid; q_data_vendor_id := validator_id;
          q_date_after := None |}.

(** The [while retry_count > 0] loop (lines 267-282); [k] counts the
    deletes already tried. *)
Fixpoint retry (db : outcomes) (q : delete_query) (df : list price_row)
    (retry_count : nat) (k : nat) (w : world) : world :=
  match retry_count with
  | O => w
  | S retry_count' =>
      let (delete_status, w1) :=
        delete_sql_table_rows (delete_succeeds db k) q w in
      if delete_status
      then df_to_sql (append_succeeds db) df w1      (* break *)
      else retry db q df retry_count' (S k) w1
  end.

(** Lines 244-292. *)
Definition write_back (clk : clock) (db : outcomes) (tsid : string)
    (tsid_prices_df df : list price_row) (w : world) : world :=
  let validator_id := query_data_vendor_id "pySecMaster_Consensus" in
  if in_list validator_id (unique_sources tsid_prices_df)
  then retry db (delete_query_of clk tsid) df 5 0 w
  else df_to_sql (append_succeeds db) df w.

(** [validator(tsid)]. *)
Definition validator (clk : clock) (db : outcomes) (tsid : string)
    (w : world) : result world :=
  let tsid_prices_df := query_all_tsid_prices tsid w in
  match table_columns (table self) with
  | NotImplementedError t => NotImplementedError t
  | Ok columns =>
      let df := consensus_price_df clk tsid columns tsid_prices_df in
      Ok (write_back clk db tsid tsid_prices_df df w)
  end.

End Validator.

(** ** The caller: [post_download_maintenance] (pySecMaster.py, lines
    319-373) *)

(** What the function does with its [download_list]: it runs
    [CrossValidate] on tables, in this order, or raises [SystemError]
    for the interval it does not know. *)
Inductive maintenance : Type :=
| CrossValidated (tables : list string)
| SystemError (interval : string).

(** [intervals[key] = True] on a dictionary whose values are all [True]:
    the keys, in insertion order. *)
Definition set_true (key : string) (intervals : list string) : list string :=
  if existsb (String.eqb key) intervals then intervals
  else intervals ++ [key].

(** Lines 333-348, the loop over [download_list]; a source is read
    through its ['interval'] entry only.  The branch for ['minute'] only
    prints: the line that would add ['minute_prices'] is commented
    out. *)
Fixpoint collect_intervals (intervals : list string)
    (download_list : list string) : maintenance :=
  match download_list with
  | [] => CrossValidated intervals
  | interval :: rest =>
      if (interval =? "daily")%string
      then collect_intervals (set_true "daily_prices" intervals) rest
      else if (interval =? "minute")%string
      then collect_intervals intervals rest
      else SystemError interval
  end.

(** Lines 333-373: [CrossValidate] is run once per key of [intervals],
    with the key as its [table]. *)
Definition post_download_maintenance (download_list : list string)
    : maintenance :=
  collect_intervals [] download_list.

(** ** Notions the properties are stated with *)

(** What one [source_data] brings to the vote: its value and the weight
    of its vendor, or nothing when the vendor is excluded, the value is
    [None] or the vendor has no weight row. *)
Definition vote (excl : list vendor_id) (ws : list weight_row)
    (source_data : vendor_id * option value) : option (value * weight) :=
  if in_list (fst source_data) excl then None
  else match snd source_data with
       | None => None
       | Some v =>
           match iloc0 (loc_consensus_weight ws (fst source_data)) with
           | None => None
           | Some w => Some (v, w)
           end
       end.

(** The weight the votes of [field_data] give to the value [v]. *)
Fixpoint accumulated (excl : list vendor_id) (ws : list weight_row)
    (v : value) (field_data : list (vendor_id * option value)) : weight :=
  match field_data with
  | [] => 0
  | sd :: r =>
      match vote excl ws sd with
      | Some (x, w) =>
          if x =? v then w + accumulated excl ws v r
          else accumulated excl ws v r
      | None => accumulated excl ws v r
      end
  end.

(** The worked example of the design document: vendors 1, 2, 3 with
    weights 3, 2, 4; vendor 15 is the consensus vendor. *)
Definition example_weights : list weight_row :=
  [mk_weight 1 3; mk_weight 2 2; mk_weight 3 4].

(** [source_data[0] not in self.source_id_exclude_list] and
    [source_data[1] is not None], the two guards of lines 183-186. *)
Definition passes_guards (excl : list vendor_id)
    (source_data : vendor_id * option value) : bool :=
  negb (in_list (fst source_data) excl)
  && match snd source_data with Some _ => true | None => false end.

(** A row of [tsid_prices_df] whose vendor is not in the exclude list. *)
Definition not_excluded (excl : list vendor_id) (r : price_row) : bool :=
  negb (in_list (data_vendor_id r) excl).

(** ** Sample data *)

(** Vendor ids by name: the consensus vendor is 15, as in
    [query_data.py]. *)
Definition sample_vendor_id (name : string) : vendor_id :=
  if (name =? "pySecMaster_Consensus")%string then 15 else 0.

Definition sample_self : CrossValidate :=
  init sample_vendor_id "daily_prices" None example_weights.

Definition sample_clock : clock :=
  {| now_beg := timedelta_days 100; now_updated := timedelta_days 100 + 7 |}.

(** A stored row of tsid [AAPL.Q.0]: every field holds [v]. *)
Definition sample_row (vid : vendor_id) (d : datetime) (v : option value)
    : price_row :=
  {| data_vendor_id := vid; source := "tsid"; source_id := "AAPL.Q.0";
     date := d; fields := fun _ => v; updated_date := 0 |}.

(** Two vendors report for one date; [sample_world_prior] also holds a
    consensus row of an earlier run. *)
Definition sample_world_fresh : world :=
  {| rows := [sample_row 1 5 (Some 10); sample_row 2 5 (Some 11)];
     calls := [] |}.

Definition sample_world_prior : world :=
  {| rows := [sample_row 1 5 (Some 10); sample_row 2 5 (Some 11);
              sample_row 15 5 (Some 9)];
     calls := [] |}.

(** A database that refuses every delete, and one whose third delete
    goes through. *)
Definition always_fails : outcomes :=
  {| delete_succeeds := fun _ => false; append_succeeds := true |}.

Definition third_time : outcomes :=
  {| delete_succeeds := fun k => Nat.eqb k 2; append_succeeds := true |}.

(** A database that carries out every delete and refuses the append. *)
Definition append_refused : outcomes :=
  {| delete_succeeds := fun _ => true; append_succeeds := false |}.

(** The delete of all consensus rows of a tsid (lines 262-265), and the
    consensus rows stored for a tsid: the rows this delete selects. *)
Definition delete_all (validator_id : vendor_id) (tsid : string)
    : delete_query :=
  {| q_source_id := tsid;
     q_data_vendor_id := validator_id;
     q_date_after := None |}.

Definition consensus_rows (validator_id : vendor_id) (tsid : string)
    (w : world) : list price_row :=
  filter (where_clause (delete_all validator_id tsid)) (rows w).

(** A row without its [updated_date] stamp. *)
Definition unstamped (r : price_row) : price_row :=
  {| data_vendor_id := data_vendor_id r; source := source r;
     source_id := source_id r; date := date r; fields := fields r;
     updated_date := 0 |}.

(** Vendors report for day 50 and day 90, and an earlier run left a
    consensus row for each of the two days. *)
Definition sample_world_window : world :=
  {| rows := [sample_row 1 (timedelta_days 50) (Some 10);
              sample_row 15 (timedelta_days 50) (Some 10);
              sample_row 1 (timedelta_days 90) (Some 12);
              sample_row 15 (timedelta_days 90) (Some 11)];
     calls := [] |}.

Definition sample_self_window : CrossValidate :=
  init sample_vendor_id "daily_prices" (Some 30) example_weights.

(** A later reading of the clock, and the table after a run on the
    sample tsid. *)
Definition sample_clock_later : clock :=
  {| now_beg := timedelta_days 101; now_updated := timedelta_days 101 + 9 |}.

Definition sample_run (clk : clock) (db : outcomes) (w : world) : world :=
  match validator sample_vendor_id sample_self clk db "AAPL.Q.0" w with
  | Ok w' => w'
  | NotImplementedError _ => w
  end.

(** A table with rows of two tsids, and the table after a run for one
    of them; the second reading of the clock is used for [MSFT.Q.0]. *)
Definition sample_row_of (tsid : string) (vid : vendor_id) (d : datetime)
    (v : option value) : price_row :=
  {| data_vendor_id := vid; source := "tsid"; source_id := tsid;
     date := d; fields := fun _ => v; updated_date := 0 |}.

Definition sample_world_two : world :=
  {| rows := [sample_row_of "AAPL.Q.0" 1 5 (Some 10);
              sample_row_of "MSFT.Q.0" 1 5 (Some 20);
              sample_row_of "AAPL.Q.0" 15 5 (Some 9);
              sample_row_of "MSFT.Q.0" 2 6 (Some 21)];
     calls := [] |}.

Definition sample_run_for (tsid : string) (clk : clock) (db : outcomes)
    (w : world) : world :=
  match validator sample_vendor_id sample_self clk db tsid w with
  | Ok w' => w'
  | NotImplementedError _ => w
  end.

(** * Properties *)

(** ** Dictionaries *)

Module DictFacts.
Import Dict.

Lemma contains_keys k d : contains k d = true <-> In k (keys d).
Proof.
  induction d as [|[k' w'] r IH]; simpl.
  - split; [discriminate | tauto].
  - destruct (Z.eqb_spec k' k) as [->|Hne].
    + tauto.
    + rewrite IH. split; [tauto | intros [H|H]; [contradiction | exact H]].
Qed.

Lemma not_contains_keys k d : contains k d = false <-> ~ In k (keys d).
Proof.
  rewrite <- contains_keys. destruct (contains k d); split; intros;
    congruence.
Qed.

Lemma getitem_absent k d : contains k d = false -> getitem k d = 0.
Proof.
  induction d as [|[k' w'] r IH]; simpl; [reflexivity|].
  destruct (k' =? k); [discriminate | exact IH].
Qed.

Lemma setitem_absent k w d :
  contains k d = false -> setitem k w d = d ++ [(k, w)].
Proof.
  induction d as [|[k' w'] r IH]; simpl; [reflexivity|].
  destruct (k' =? k); [discriminate|]. intros H. now rewrite IH.
Qed.

Lemma keys_setitem_present k w d :
  contains k d = true -> keys (setitem k w d) = keys d.
Proof.
  induction d as [|[k' w'] r IH]; simpl; [discriminate|].
  destruct (k' =? k); simpl; [reflexivity|]. intros H. now rewrite IH.
Qed.

Lemma keys_setitem_absent k w d :
  contains k d = false -> keys (setitem k w d) = keys d ++ [k].
Proof.
  intros H. rewrite (setitem_absent k w d H). unfold keys.
  now rewrite map_app.
Qed.

Lemma getitem_setitem_same k w d : getitem k (setitem k w d) = w.
Proof.
  induction d as [|[k' w'] r IH]; simpl.
  - now rewrite Z.eqb_refl.
  - destruct (k' =? k) eqn:E; simpl; rewrite E; [reflexivity | exact IH].
Qed.

Lemma getitem_setitem_other k k0 w d :
  k0 <> k -> getitem k (setitem k0 w d) = getitem k d.
Proof.
  intros Hne. induction d as [|[k' w'] r IH]; simpl.
  - destruct (Z.eqb_spec k0 k); [contradiction | reflexivity].
  - destruct (Z.eqb_spec k' k0) as [->|H0]; simpl.
    + destruct (Z.eqb_spec k0 k); [contradiction | reflexivity].
    + destruct (k' =? k); [reflexivity | exact IH].
Qed.

Lemma contains_setitem k k0 w d :
  contains k (setitem k0 w d) = (k0 =? k) || contains k d.
Proof.
  induction d as [|[k' w'] r IH]; simpl.
  - now destruct (k0 =? k).
  - destruct (Z.eqb_spec k' k0) as [->|H0]; simpl.
    + destruct (k0 =? k); reflexivity.
    + rewrite IH. destruct (k' =? k), (k0 =? k); reflexivity.
Qed.

Lemma getitem_In k w d : NoDup (keys d) -> In (k, w) d -> getitem k d = w.
Proof.
  induction d as [|[k' w'] r IH]; simpl; [tauto|].
  intros Hnd [H|H].
  - inversion H; subst. now rewrite Z.eqb_refl.
  - inversion Hnd as [|? ? Hnotin Hnd']; subst.
    destruct (Z.eqb_spec k' k) as [->|Hne].
    + exfalso. apply Hnotin. change (In (fst (k, w)) (map fst r)).
      now apply in_map.
    + now apply IH.
Qed.

Lemma truthy_contains k d : truthy d && contains k d = contains k d.
Proof. destruct d; reflexivity. Qed.


End DictFacts.

(** ** The vote *)

Section VoteFacts.

Variable excl : list vendor_id.
Variable ws : list weight_row.

(** The loop body adds the vote of the observation to the bucket of its
    value, creating the bucket when there is none. *)
Lemma tally_source_vote fc sd :
  tally_source excl ws fc sd =
    match vote excl ws sd with
    | Some (v, w) => Dict.setitem v (Dict.getitem v fc + w) fc
    | None => fc
    end.
Proof.
  unfold tally_source, vote. destruct sd as [vid [v|]]; simpl.
  - destruct (in_list vid excl); simpl; [reflexivity|].
    rewrite DictFacts.truthy_contains.
    destruct (iloc0 (loc_consensus_weight ws vid)) as [w|].
    + destruct (Dict.contains v fc) eqn:E; [reflexivity|].
      now rewrite (DictFacts.getitem_absent v fc E).
    + now destruct (Dict.contains v fc).
  - now destruct (in_list vid excl).
Qed.

Lemma tally_source_getitem fc sd v :
  Dict.getitem v (tally_source excl ws fc sd) =
    Dict.getitem v fc + accumulated excl ws v [sd].
Proof.
  rewrite tally_source_vote. simpl.
  destruct (vote excl ws sd) as [[x w]|]; [|lia].
  destruct (Z.eqb_spec x v) as [->|Hne].
  - rewrite DictFacts.getitem_setitem_same. lia.
  - rewrite DictFacts.getitem_setitem_other by exact Hne. lia.
Qed.

Lemma tally_source_contains fc sd v :
  Dict.contains v (tally_source excl ws fc sd) =
    Dict.contains v fc
    || match vote excl ws sd with
       | Some (x, _) => x =? v
       | None => false
       end.
Proof.
  rewrite tally_source_vote.
  destruct (vote excl ws sd) as [[x w]|].
  - rewrite DictFacts.contains_setitem. apply orb_comm.
  - now rewrite orb_false_r.
Qed.

Lemma tally_source_NoDup fc sd :
  NoDup (Dict.keys fc) -> NoDup (Dict.keys (tally_source excl ws fc sd)).
Proof.
  intros Hnd. rewrite tally_source_vote.
  destruct (vote excl ws sd) as [[x w]|]; [|exact Hnd].
  destruct (Dict.contains x fc) eqn:E.
  - now rewrite DictFacts.keys_setitem_present.
  - rewrite DictFacts.keys_setitem_absent by exact E.
    apply (Permutation_NoDup (Permutation_cons_append (Dict.keys fc) x)).
    constructor; [|exact Hnd]. now apply DictFacts.not_contains_keys.
Qed.


Lemma fold_getitem field_data fc v :
  Dict.getitem v (fold_left (tally_source excl ws) field_data fc) =
    Dict.getitem v fc + accumulated excl ws v field_data.
Proof.
  revert fc. induction field_data as [|sd r IH]; intros fc; simpl.
  - lia.
  - rewrite IH, tally_source_getitem. simpl.
    destruct (vote excl ws sd) as [[x w]|]; [|lia].
    destruct (x =? v); lia.
Qed.

Lemma fold_NoDup field_data fc :
  NoDup (Dict.keys fc) ->
  NoDup (Dict.keys (fold_left (tally_source excl ws) field_data fc)).
Proof.
  revert fc. induction field_data as [|sd r IH]; intros fc H; simpl.
  - exact H.
  - apply IH. now apply tally_source_NoDup.
Qed.

Lemma fold_contains field_data fc v :
  Dict.contains v (fold_left (tally_source excl ws) field_data fc) = true
  <-> Dict.contains v fc = true
      \/ exists sd w, In sd field_data /\ vote excl ws sd = Some (v, w).
Proof.
  revert fc. induction field_data as [|sd r IH]; intros fc; simpl.
  - split; [tauto | intros [H|(sd & w & [] & _)]; exact H].
  - rewrite IH, tally_source_contains, orb_true_iff. split.
    + intros [[H|H]|(sd' & w & Hin & Hv)].
      * now left.
      * right. destruct (vote excl ws sd) as [[x w]|] eqn:E;
          [|discriminate].
        apply Z.eqb_eq in H. subst x. exists sd, w. tauto.
      * right. exists sd', w. tauto.
    + intros [H|(sd' & w & [Heq|Hin] & Hv)].
      * now left; left.
      * subst sd'. left; right. rewrite Hv. apply Z.eqb_refl.
      * right. exists sd', w. tauto.
Qed.

Lemma field_consensus_NoDup field_data :
  NoDup (Dict.keys (field_consensus excl ws field_data)).
Proof. apply fold_NoDup. constructor. Qed.

Lemma field_consensus_keys field_data v :
  In v (Dict.keys (field_consensus excl ws field_data)) <->
  exists sd w, In sd field_data /\ vote excl ws sd = Some (v, w).
Proof.
  rewrite <- DictFacts.contains_keys.
  unfold field_consensus. rewrite fold_contains. simpl.
  split; [intros [H|H]; [discriminate | exact H] | now right].
Qed.

Lemma field_consensus_weight field_data v w :
  In (v, w) (field_consensus excl ws field_data) ->
  w = accumulated excl ws v field_data.
Proof.
  intros Hin.
  rewrite <- (DictFacts.getitem_In v w _
                (field_consensus_NoDup field_data) Hin).
  unfold field_consensus. now rewrite fold_getitem.
Qed.

End VoteFacts.

(** ** The maximum *)

Lemma max_from_In best items :
  max_from best items = best \/ In (max_from best items) items.
Proof.
  revert best. induction items as [|x r IH]; intros best; simpl.
  - now left.
  - destruct (snd x >? snd best).
    + destruct (IH x) as [->|H]; tauto.
    + destruct (IH best) as [->|H]; tauto.
Qed.

Lemma max_from_ge_best best items : snd best <= snd (max_from best items).
Proof.
  revert best. induction items as [|x r IH]; intros best; simpl.
  - lia.
  - destruct (Z.gtb_spec (snd x) (snd best)).
    + specialize (IH x). lia.
    + apply IH.
Qed.

Lemma max_from_ge best items x :
  In x items -> snd x <= snd (max_from best items).
Proof.
  revert best. induction items as [|y r IH]; intros best; simpl; [tauto|].
  intros [->|Hin].
  - destruct (Z.gtb_spec (snd x) (snd best)).
    + apply max_from_ge_best.
    + pose proof (max_from_ge_best best r). lia.
  - destruct (snd y >? snd best); now apply IH.
Qed.

(** No later item displaces a running maximum it does not exceed. *)
Lemma max_from_stable best items :
  (forall x, In x items -> snd x <= snd best) -> max_from best items = best.
Proof.
  revert best. induction items as [|y r IH]; intros best H; simpl.
  - reflexivity.
  - destruct (Z.gtb_spec (snd y) (snd best)) as [Hgt|Hle].
    + specialize (H y (or_introl eq_refl)). lia.
    + apply IH. intros x Hx. apply H. now right.
Qed.

(** The items before the first maximum are all strictly lighter. *)
Lemma max_from_first before best x after :
  (forall y, In y before -> snd y < snd x) ->
  snd best < snd x ->
  (forall y, In y after -> snd y <= snd x) ->
  max_from best (before ++ x :: after) = x.
Proof.
  revert best. induction before as [|y r IH]; intros best Hb Hx Ha; simpl.
  - destruct (Z.gtb_spec (snd x) (snd best)); [|lia].
    now apply max_from_stable.
  - assert (Hy : snd y < snd x) by (apply Hb; now left).
    destruct (snd y >? snd best); apply IH; auto;
      intros z Hz; apply Hb; now right.
Qed.

Lemma py_max_In items kv : py_max items = Some kv -> In kv items.
Proof.
  destruct items as [|x r]; simpl; [discriminate|].
  intros H. inversion H. destruct (max_from_In x r) as [->|Hin]; tauto.
Qed.

Lemma py_max_ge items kv x :
  py_max items = Some kv -> In x items -> snd x <= snd kv.
Proof.
  destruct items as [|y r]; simpl; [discriminate|].
  intros H [->|Hin]; inversion H.
  - apply max_from_ge_best.
  - now apply max_from_ge.
Qed.

Lemma py_max_first items kv :
  py_max items = Some kv ->
  exists before after,
    items = before ++ kv :: after
    /\ (forall y, In y before -> snd y < snd kv)
    /\ (forall y, In y after -> snd y <= snd kv).
Proof.
  destruct items as [|x r]; simpl; [discriminate|].
  intros H. injection H as Hkv. subst kv.
  (* the running maximum [best] heads the part already seen *)
  assert (G : forall items seen best,
             (forall y, In y seen -> snd y < snd best) ->
             exists before after,
               seen ++ best :: items =
                 before ++ max_from best items :: after
               /\ (forall y, In y before -> snd y < snd (max_from best items))
               /\ (forall y, In y after -> snd y <= snd (max_from best items))).
  { clear. induction items as [|y r IH]; intros seen best Hseen; simpl.
    - exists seen, []. repeat split; [exact Hseen | intros y []].
    - destruct (Z.gtb_spec (snd y) (snd best)) as [Hgt|Hle].
      + destruct (IH (seen ++ [best]) y) as (b & a & E & Hb & Ha).
        * intros z Hz. apply in_app_or in Hz. destruct Hz as [Hz|[<-|[]]].
          -- specialize (Hseen z Hz). lia.
          -- lia.
        * exists b, a. rewrite <- app_assoc in E. simpl in E. tauto.
      + destruct (IH [] best) as (b & a & E & Hb & Ha); [intros z []|].
        simpl in E.
        pose proof (max_from_ge_best best r) as Hge.
        destruct b as [|b0 b']; simpl in E; injection E as Hbest Hr.
        * exists seen, (y :: a). rewrite <- Hbest, Hr.
          repeat split.
          -- exact Hseen.
          -- intros z [<-|Hz]; [exact Hle|].
             specialize (Ha z Hz). rewrite <- Hbest in Ha. exact Ha.
        * subst b0.
          exists (seen ++ best :: y :: b'), a. repeat split.
          -- rewrite <- app_assoc. simpl. now rewrite <- Hr.
          -- intros z Hz. apply in_app_or in Hz.
             destruct Hz as [Hz|[<-|[<-|Hz]]].
             ++ specialize (Hseen z Hz). lia.
             ++ apply Hb. now left.
             ++ specialize (Hb best (or_introl eq_refl)). lia.
             ++ apply Hb. now right.
          -- exact Ha. }
  destruct (G r [] x) as (b & a & E & Hb & Ha); [intros y []|].
  exists b, a. simpl in E. repeat split; assumption.
Qed.

(** ** Claims about the vote *)


(** C2 as stated fails: the code leaves out a value that is [None], not
    a value that is -1.  Vendor 1 (weight 3) reports -1 and vendor 2
    (weight 2) reports 10: the -1 gets a bucket of weight 3, the tally
    is not the tally without that observation, and the -1 bucket wins. *)
Lemma C2_sentinel_observation_is_tallied :
  field_consensus [15] example_weights [(1, Some (-1)); (2, Some 10)]
    = [(-1, 3); (10, 2)]
  /\ field_consensus [15] example_weights [(1, Some (-1)); (2, Some 10)]
     <> field_consensus [15] example_weights [(2, Some 10)]
  /\ py_max (field_consensus [15] example_weights
               [(1, Some (-1)); (2, Some 10)]) = Some (-1, 3).
Proof. repeat split. discriminate. Qed.

Lemma fold_filter_guards excl ws field_data fc :
  fold_left (tally_source excl ws) (filter (passes_guards excl) field_data) fc
  = fold_left (tally_source excl ws) field_data fc.
Proof.
  revert fc. induction field_data as [|sd r IH]; intros fc; simpl.
  - reflexivity.
  - destruct (passes_guards excl sd) eqn:E; simpl; [apply IH|].
    rewrite IH. f_equal. unfold tally_source.
    unfold passes_guards in E.
    destruct (in_list (fst sd) excl); simpl in *; [reflexivity|].
    destruct (snd sd); [discriminate | reflexivity].
Qed.

(** C2, amended.  Only the observations whose vendor is not excluded and
    whose value is not [None] reach the tally: the tally is the tally of
    those observations alone, an observation of an excluded vendor or
    with the value [None] leaves every bucket as it was, and an
    observation with the value -1 from a counted vendor adds the
    vendor's weight to the bucket of -1 like any other value. *)
Theorem C2_only_excluded_and_None_are_left_out :
  forall excl ws,
    (forall field_data,
        field_consensus excl ws field_data
        = field_consensus excl ws (filter (passes_guards excl) field_data))
    /\ (forall fc vid v,
          in_list vid excl = true -> tally_source excl ws fc (vid, v) = fc)
    /\ (forall fc vid, tally_source excl ws fc (vid, None) = fc)
    /\ (forall fc vid w,
          in_list vid excl = false ->
          iloc0 (loc_consensus_weight ws vid) = Some w ->
          Dict.getitem (-1) (tally_source excl ws fc (vid, Some (-1)))
          = Dict.getitem (-1) fc + w).
Proof.
  intros excl ws. repeat split.
  - intros fd. unfold field_consensus. now rewrite fold_filter_guards.
  - intros fc vid v H. unfold tally_source. simpl. now rewrite H.
  - intros fc vid. unfold tally_source. simpl.
    now destruct (in_list vid excl).
  - intros fc vid w Hex Hw. rewrite tally_source_getitem. simpl.
    unfold vote. simpl. now rewrite Hex, Hw, Z.add_0_r.
Qed.

(** The amended C2 on a tally that holds 10 with weight 2: the consensus
    vendor's 10 changes nothing, vendor 1's -1 opens a bucket of 3. *)
Lemma C2_witness :
  tally_source [15] example_weights [(10, 2)] (15, Some 10) = [(10, 2)]
  /\ Dict.getitem (-1)
       (tally_source [15] example_weights [(10, 2)] (1, Some (-1)))
     = Dict.getitem (-1) [(10, 2)] + 3.
Proof.
  split.
  - apply (proj1 (proj2 (C2_only_excluded_and_None_are_left_out
                           [15] example_weights))).
    reflexivity.
  - apply (proj2 (proj2 (proj2 (C2_only_excluded_and_None_are_left_out
                                  [15] example_weights))));
      reflexivity.
Defined.



(** C10.  An observation of a vendor that has no row in the weight table
    is passed over: the loop body returns the tally it was given, bucket
    for bucket, and the tally of a field is the tally of its other
    observations. *)
Theorem C10_missing_weight_is_skipped :
  forall excl ws vid v,
    loc_consensus_weight ws vid = [] ->
    (forall fc, tally_source excl ws fc (vid, v) = fc)
    /\ (forall before after,
          field_consensus excl ws (before ++ (vid, v) :: after)
          = field_consensus excl ws (before ++ after)).
Proof.
  intros excl ws vid v Hloc.
  assert (Hstep : forall fc, tally_source excl ws fc (vid, v) = fc).
  { intros fc. rewrite tally_source_vote. unfold vote. simpl.
    rewrite Hloc. simpl.
    destruct (in_list vid excl); [reflexivity|]. now destruct v. }
  split; [exact Hstep|].
  intros before after. unfold field_consensus.
  rewrite !fold_left_app. simpl. now rewrite Hstep.
Qed.

(** Vendor 7 has no weight row. *)
Lemma C10_witness :
  field_consensus [15] example_weights [(1, Some 10); (7, Some 12); (3, Some 11)]
  = field_consensus [15] example_weights [(1, Some 10); (3, Some 11)].
Proof.
  apply (proj2 (C10_missing_weight_is_skipped [15] example_weights 7 (Some 12)
                  eq_refl) [(1, Some 10)] [(3, Some 11)]).
Defined.

(** ** The rows of [consensus_price_df] *)

Lemma in_list_In x l : in_list x l = true <-> In x l.
Proof.
  unfold in_list. rewrite existsb_exists. split.
  - intros (y & Hy & E). apply Z.eqb_eq in E. now subst y.
  - intros H. exists x. split; [exact H | apply Z.eqb_refl].
Qed.

Lemma in_list_false x l : in_list x l = false <-> ~ In x l.
Proof.
  rewrite <- in_list_In. destruct (in_list x l); split; intros; congruence.
Qed.

Lemma unique_from_In seen l x :
  In x (unique_from seen l) <-> In x l /\ ~ In x seen.
Proof.
  revert seen. induction l as [|y r IH]; intros seen; simpl.
  - tauto.
  - destruct (in_list y seen) eqn:E.
    + apply in_list_In in E. rewrite IH. split.
      * tauto.
      * intros [[->|H] Hn]; tauto.
    + apply in_list_false in E. simpl. rewrite IH. simpl. split.
      * intros [->|[H Hn]]; tauto.
      * intros [[->|H] Hn]; [now left|].
        destruct (Z.eq_dec y x) as [->|Hne]; [now left|]. right.
        split; [exact H|]. intros [?|?]; tauto.
Qed.

Lemma unique_In l x : In x (unique l) <-> In x l.
Proof. unfold unique. rewrite unique_from_In. simpl. tauto. Qed.

Lemma unique_from_NoDup seen l : NoDup (unique_from seen l).
Proof.
  revert seen. induction l as [|y r IH]; intros seen; simpl.
  - constructor.
  - destruct (in_list y seen); [apply IH|].
    constructor; [|apply IH].
    rewrite unique_from_In. simpl. tauto.
Qed.

Lemma unique_NoDup l : NoDup (unique l).
Proof. apply unique_from_NoDup. Qed.

Lemma cell_assigned (g : string -> value) columns f :
  In f columns ->
  cell (map (fun c => (c, g c)) columns) f = Some (g f).
Proof.
  induction columns as [|c r IH]; simpl; [tauto|].
  intros H. destruct (String.eqb_spec c f) as [->|Hne]; [reflexivity|].
  destruct H as [H|H]; [contradiction | now apply IH].
Qed.

Lemma vote_Some excl ws sd v w :
  vote excl ws sd = Some (v, w) ->
  in_list (fst sd) excl = false
  /\ snd sd = Some v
  /\ iloc0 (loc_consensus_weight ws (fst sd)) = Some w.
Proof.
  unfold vote. destruct (in_list (fst sd) excl); [discriminate|].
  destruct (snd sd) as [x|]; [|discriminate].
  destruct (iloc0 _) as [y|]; [|discriminate].
  intros H. injection H as -> ->. auto.
Qed.

(** A tally whose buckets all carry one value elects that value. *)
Lemma consensus_of_single (d : Dict.t) v :
  d <> [] -> (forall k, In k (Dict.keys d) -> k = v) -> consensus_of d = v.
Proof.
  intros Hne Hall. unfold consensus_of.
  destruct (py_max d) as [kv|] eqn:E.
  - apply Hall. unfold Dict.keys. apply in_map. now apply py_max_In.
  - destruct d; [contradiction | discriminate].
Qed.

Lemma field_consensus_drop_excluded excl ws period_df f :
  field_consensus excl ws (field_data (filter (not_excluded excl) period_df) f)
  = field_consensus excl ws (field_data period_df f).
Proof.
  unfold field_consensus. generalize (@nil (Z * Z)) as fc.
  induction period_df as [|r rs IH]; intros fc; simpl; [reflexivity|].
  unfold not_excluded at 1.
  destruct (in_list (data_vendor_id r) excl) eqn:E; simpl.
  - rewrite IH. f_equal. unfold tally_source. simpl. now rewrite E.
  - apply IH.
Qed.

Lemma xs_filter d (p : price_row -> bool) df :
  xs d (filter p df) = filter p (xs d df).
Proof.
  unfold xs. induction df as [|r rs IH]; simpl; [reflexivity|].
  destruct (p r) eqn:Ep, (date r =? d) eqn:Ed; simpl;
    rewrite ?Ep, ?Ed, IH; reflexivity.
Qed.

(** The vote of a date and a field reads the rows of the counted vendors
    only. *)
Lemma consensus_value_drop_excluded excl ws d f df :
  consensus_value excl ws (field_data (xs d (filter (not_excluded excl) df)) f)
  = consensus_value excl ws (field_data (xs d df) f).
Proof.
  unfold consensus_value.
  now rewrite xs_filter, field_consensus_drop_excluded.
Qed.

Lemma consensus_cells_drop_excluded self columns d df :
  consensus_cells self columns
    (xs d (filter (not_excluded (source_id_exclude_list self)) df))
  = consensus_cells self columns (xs d df).
Proof.
  unfold consensus_cells. apply map_ext. intros f.
  now rewrite consensus_value_drop_excluded.
Qed.

Lemma filter_none {A} (p : A -> bool) l :
  (forall x, In x l -> p x = false) -> filter p l = [].
Proof.
  induction l as [|x r IH]; simpl; intros H; [reflexivity|].
  rewrite (H x (or_introl eq_refl)). apply IH. intros y Hy. apply H. now right.
Qed.

Lemma filter_all {A} (p : A -> bool) l :
  (forall x, In x l -> p x = true) -> filter p l = l.
Proof.
  induction l as [|x r IH]; simpl; intros H; [reflexivity|].
  rewrite (H x (or_introl eq_refl)). f_equal. apply IH.
  intros y Hy. apply H. now right.
Qed.

Lemma filter_filter_implied {A} (p q : A -> bool) l :
  (forall x, p x = true -> q x = true) ->
  filter p (filter q l) = filter p l.
Proof.
  intros H. induction l as [|x r IH]; simpl; [reflexivity|].
  destruct (q x) eqn:Eq; simpl.
  - now rewrite IH.
  - destruct (p x) eqn:Ep; [|exact IH].
    rewrite (H x Ep) in Eq. discriminate.
Qed.

Lemma filter_comm {A} (p q : A -> bool) l :
  filter p (filter q l) = filter q (filter p l).
Proof.
  induction l as [|x r IH]; simpl; [reflexivity|].
  destruct (q x) eqn:Eq, (p x) eqn:Ep; simpl; rewrite ?Eq, ?Ep, IH;
    reflexivity.
Qed.

Lemma consensus_price_df_dates qid self clk tsid columns df :
  map date (consensus_price_df qid self clk tsid columns df)
  = unique_dates self clk df.
Proof.
  unfold consensus_price_df. rewrite map_map. simpl. apply map_id.
Qed.

(** C3.  Every row of [consensus_price_df] holds a value in every column
    of the table, and where nothing counts for a date and a field the
    value is -1: when every observation is passed over (its vendor is
    excluded, its value is [None] or its vendor has no weight row) the
    tally is empty and [max] fails; when the observations that are not
    passed over all report -1 the tally can only elect -1. *)
Theorem C3_no_data_gives_sentinel :
  forall qid self clk tsid columns df r f,
    In r (consensus_price_df qid self clk tsid columns df) ->
    In f columns ->
    let excl := source_id_exclude_list self in
    let ws := source_weights_df self in
    let fd := field_data (xs (date r) df) f in
    (exists v, fields r f = Some v)
    /\ ((forall sd, In sd fd ->
           in_list (fst sd) excl = true \/ snd sd = None
           \/ loc_consensus_weight ws (fst sd) = []) ->
        field_consensus excl ws fd = [] /\ fields r f = Some (-1))
    /\ ((forall sd, In sd fd ->
           in_list (fst sd) excl = true \/ snd sd = None
           \/ snd sd = Some (-1)
           \/ loc_consensus_weight ws (fst sd) = []) ->
        fields r f = Some (-1)).
Proof.
  intros qid self clk tsid columns df r f Hr Hf excl ws fd.
  unfold consensus_price_df in Hr. apply in_map_iff in Hr.
  destruct Hr as (d & <- & Hd). simpl in fd. simpl.
  unfold consensus_cells.
  rewrite (cell_assigned
             (fun c => consensus_value (source_id_exclude_list self)
                         (source_weights_df self)
                         (field_data (xs d df) c)) columns f Hf).
  fold excl ws fd.
  assert (Hkeys : forall v, In v (Dict.keys (field_consensus excl ws fd)) ->
                    exists sd w, In sd fd /\ vote excl ws sd = Some (v, w)).
  { intros v Hv. now apply field_consensus_keys. }
  split; [eauto|]. split.
  - intros Hall.
    assert (E : field_consensus excl ws fd = []).
    { destruct (field_consensus excl ws fd) as [|[k w] rest] eqn:E;
        [reflexivity|].
      destruct (Hkeys k (or_introl eq_refl)) as (sd & w' & Hin & Hv).
      apply vote_Some in Hv. destruct Hv as (Hex & Hval & Hw).
      destruct (Hall sd Hin) as [H|[H|H]]; try congruence.
      rewrite H in Hw. discriminate. }
    split; [exact E|]. unfold consensus_value. now rewrite E.
  - intros Hall. f_equal. unfold consensus_value.
    destruct (field_consensus excl ws fd) as [|kv rest] eqn:E;
      [reflexivity|].
    apply consensus_of_single; [congruence|].
    intros k Hk.
    destruct (Hkeys k Hk) as (sd & w' & Hin & Hv).
    apply vote_Some in Hv. destruct Hv as (Hex & Hval & Hw).
    destruct (Hall sd Hin) as [H|[H|[H|H]]]; try congruence.
    rewrite H in Hw. discriminate.
Qed.

(** One date on which the consensus vendor, a vendor without weight, a
    vendor without value and a vendor reporting -1 are all there is. *)
Lemma C3_witness :
  fields
    {| data_vendor_id := 15; source := "tsid"; source_id := "AAPL.Q.0";
       date := 5;
       fields :=
         cell (consensus_cells sample_self ["open"; "close"]
                 (xs 5 [sample_row 15 5 (Some 42); sample_row 7 5 (Some 12);
                        sample_row 1 5 None; sample_row 2 5 (Some (-1))]));
       updated_date := now_updated sample_clock |}
    "close" = Some (-1).
Proof.
  apply (C3_no_data_gives_sentinel sample_vendor_id sample_self sample_clock
           "AAPL.Q.0" ["open"; "close"]
           [sample_row 15 5 (Some 42); sample_row 7 5 (Some 12);
            sample_row 1 5 None; sample_row 2 5 (Some (-1))]).
  - left. reflexivity.
  - right. left. reflexivity.
  - intros sd [<-|[<-|[<-|[<-|[]]]]].
    + left. reflexivity.
    + right. right. right. reflexivity.
    + right. left. reflexivity.
    + right. right. left. reflexivity.
Defined.

(** C4.  The consensus vendor is in the exclude list that [__init__]
    builds, and rows of excluded vendors do not vote: two tables with
    the same rows of counted vendors give, for every date and field, the
    same consensus value, and their consensus rows for a date agree in
    every column.  A date that one table carries only in rows of
    excluded vendors gets a row of -1, the value for no data. *)
Theorem C4_excluded_rows_do_not_vote :
  forall qid self clk tsid columns (df1 df2 : list price_row),
    let excl := source_id_exclude_list self in
    filter (not_excluded excl) df1 = filter (not_excluded excl) df2 ->
    (forall table period ws,
        In (qid "pySecMaster_Consensus")
           (source_id_exclude_list (init qid table period ws)))
    /\ (forall d f,
          consensus_value excl (source_weights_df self)
            (field_data (xs d df1) f)
          = consensus_value excl (source_weights_df self)
              (field_data (xs d df2) f))
    /\ (forall r1 r2,
          In r1 (consensus_price_df qid self clk tsid columns df1) ->
          In r2 (consensus_price_df qid self clk tsid columns df2) ->
          date r1 = date r2 -> r1 = r2)
    /\ (forall r2 f,
          In r2 (consensus_price_df qid self clk tsid columns df2) ->
          ~ In (date r2)
               (map date (consensus_price_df qid self clk tsid columns df1)) ->
          In f columns -> fields r2 f = Some (-1)).
Proof.
  intros qid self clk tsid columns df1 df2 excl Hsame.
  split; [intros; now left|]. split; [|split].
  - intros d f.
    rewrite <- (consensus_value_drop_excluded excl _ d f df1).
    rewrite <- (consensus_value_drop_excluded excl _ d f df2).
    now rewrite Hsame.
  - intros r1 r2 H1 H2 Hd.
    unfold consensus_price_df in H1, H2.
    apply in_map_iff in H1. destruct H1 as (d1 & <- & _).
    apply in_map_iff in H2. destruct H2 as (d2 & <- & _).
    simpl in Hd. subst d2. f_equal. f_equal.
    rewrite <- (consensus_cells_drop_excluded self columns d1 df1).
    rewrite <- (consensus_cells_drop_excluded self columns d1 df2).
    fold excl. now rewrite Hsame.
  - intros r2 f H2 Hnot Hf.
    rewrite consensus_price_df_dates in Hnot.
    unfold consensus_price_df in H2.
    apply in_map_iff in H2. destruct H2 as (d & <- & Hd).
    simpl in Hnot. simpl.
    (* no row of [df1] carries the date [d] *)
    assert (Hnone : xs d df1 = []).
    { apply filter_none. intros r Hr.
      destruct (Z.eqb_spec (date r) d) as [E|]; [|reflexivity].
      exfalso. apply Hnot. unfold unique_dates in *.
      destruct (truthy (period self)).
      - apply filter_In in Hd. destruct Hd as [_ Hd].
        apply filter_In. split; [|exact Hd].
        apply unique_In. rewrite <- E. now apply in_map.
      - apply unique_In. rewrite <- E. now apply in_map. }
    rewrite <- (consensus_cells_drop_excluded self columns d df2).
    fold excl. rewrite <- Hsame, xs_filter, Hnone. simpl.
    exact (cell_assigned
             (fun c => consensus_value excl (source_weights_df self)
                         (field_data [] c)) columns f Hf).
Qed.

(** The second table holds two more rows, both of the consensus
    vendor. *)
Lemma C4_witness :
  consensus_value [15] example_weights
    (field_data (xs 5 [sample_row 1 5 (Some 10); sample_row 2 5 (Some 11)])
                "close")
  = consensus_value [15] example_weights
      (field_data (xs 5 [sample_row 15 5 (Some 11); sample_row 1 5 (Some 10);
                         sample_row 2 5 (Some 11); sample_row 15 6 (Some 9)])
                  "close").
Proof.
  apply (proj1 (proj2 (C4_excluded_rows_do_not_vote
                         sample_vendor_id sample_self sample_clock "AAPL.Q.0"
                         ["open"; "close"]
                         [sample_row 1 5 (Some 10); sample_row 2 5 (Some 11)]
                         [sample_row 15 5 (Some 11); sample_row 1 5 (Some 10);
                          sample_row 2 5 (Some 11); sample_row 15 6 (Some 9)]
                         eq_refl))).
Defined.

(** ** The write-back *)

(** Every delete of the loop fails: [retry_count] deletes, no append,
    the table as it was. *)
Lemma retry_all_fail db q df n k w :
  (forall i, (i < n)%nat -> delete_succeeds db (k + i) = false) ->
  retry db q df n k w
  = {| rows := rows w; calls := calls w ++ repeat (Delete q false) n |}.
Proof.
  revert k w. induction n as [|n IH]; intros k w Hfail; simpl.
  - rewrite app_nil_r. now destruct w.
  - assert (E : delete_succeeds db k = false)
      by (rewrite <- (Nat.add_0_r k); apply Hfail; lia).
    rewrite E, IH.
    + simpl. now rewrite <- app_assoc.
    + intros i Hi. replace (S k + i)%nat with (k + S i)%nat by lia.
      apply Hfail. lia.
Qed.

(** The [j]-th delete is the first that succeeds: [j] failed deletes,
    the successful one, then the append, and the loop is left. *)
Lemma retry_first_success db q df n k j w :
  (j < n)%nat ->
  (forall i, (i < j)%nat -> delete_succeeds db (k + i) = false) ->
  delete_succeeds db (k + j) = true ->
  retry db q df n k w
  = df_to_sql (append_succeeds db) df
      {| rows := filter (fun r => negb (where_clause q r)) (rows w);
         calls := calls w ++ repeat (Delete q false) j ++ [Delete q true] |}.
Proof.
  revert k j w. induction n as [|n IH]; intros k j w Hj Hfail Hok; [lia|].
  simpl. destruct j as [|j].
  - rewrite Nat.add_0_r in Hok. rewrite Hok. reflexivity.
  - assert (E : delete_succeeds db k = false)
      by (rewrite <- (Nat.add_0_r k); apply Hfail; lia).
    rewrite E, (IH (S k) j).
    + simpl. now rewrite <- !app_assoc.
    + lia.
    + intros i Hi. replace (S k + i)%nat with (k + S i)%nat by lia.
      apply Hfail. lia.
    + now replace (S k + j)%nat with (k + S j)%nat by lia.
Qed.

(** Either some delete among the first [n] succeeds, and then there is
    a first one, or all of them fail. *)
Lemma first_success (p : nat -> bool) n :
  (forall i, (i < n)%nat -> p i = false)
  \/ exists j, (j < n)%nat /\ (forall i, (i < j)%nat -> p i = false)
               /\ p j = true.
Proof.
  induction n as [|n [IH|(j & Hj & Hf & Hs)]].
  - left. intros i Hi. lia.
  - destruct (p n) eqn:E.
    + right. exists n. auto.
    + left. intros i Hi. destruct (Nat.eq_dec i n) as [->|Hne];
        [exact E | apply IH; lia].
  - right. exists j. split; [lia | auto].
Qed.

(** The two shapes of a run of the loop. *)
Lemma retry_cases db q df w :
  ((forall i, (i < 5)%nat -> delete_succeeds db i = false)
   /\ retry db q df 5 0 w
      = {| rows := rows w; calls := calls w ++ repeat (Delete q false) 5 |})
  \/ (exists j, (j < 5)%nat
        /\ (forall i, (i < j)%nat -> delete_succeeds db i = false)
        /\ delete_succeeds db j = true
        /\ retry db q df 5 0 w
           = df_to_sql (append_succeeds db) df
               {| rows := filter (fun r => negb (where_clause q r)) (rows w);
                  calls := calls w ++ repeat (Delete q false) j
                                   ++ [Delete q true] |}).
Proof.
  destruct (first_success (delete_succeeds db) 5)
    as [Hall|(j & Hj & Hf & Hs)].
  - left. split; [exact Hall|]. now apply retry_all_fail.
  - right. exists j. repeat split; try assumption.
    now apply retry_first_success.
Qed.

Lemma validator_Ok query_data_vendor_id self clk db tsid w columns :
  table_columns (table self) = Ok columns ->
  validator query_data_vendor_id self clk db tsid w
  = Ok (write_back query_data_vendor_id self clk db tsid
          (query_all_tsid_prices tsid w)
          (consensus_price_df query_data_vendor_id self clk tsid columns
             (query_all_tsid_prices tsid w))
          w).
Proof. intros H. unfold validator. now rewrite H. Qed.

(** C5.  With prior consensus rows the run makes at most five deletes
    and at most one append, and the append comes only directly after a
    delete that reported success.  Either all five deletes fail, and then
    the run made exactly these five calls and the table holds the rows it
    held before; or the first success is the delete number [j < 5], and
    then the run made [j] failed deletes, the successful one and the
    append of [consensus_price_df], in this order. *)
Theorem C5_insert_only_after_confirmed_delete :
  forall qid self clk db tsid w columns,
    table_columns (table self) = Ok columns ->
    In (qid "pySecMaster_Consensus")
       (unique_sources (query_all_tsid_prices tsid w)) ->
    let df := consensus_price_df qid self clk tsid columns
                (query_all_tsid_prices tsid w) in
    let q := delete_query_of qid self clk tsid in
    exists w',
      validator qid self clk db tsid w = Ok w'
      /\ (((forall i, (i < 5)%nat -> delete_succeeds db i = false)
           /\ calls w' = calls w ++ repeat (Delete q false) 5
           /\ rows w' = rows w)
          \/ (exists j, (j < 5)%nat
                /\ (forall i, (i < j)%nat -> delete_succeeds db i = false)
                /\ delete_succeeds db j = true
                /\ calls w' = calls w ++ repeat (Delete q false) j
                                      ++ [Delete q true;
                                          Append df (append_succeeds db)])).
Proof.
  intros qid self clk db tsid w columns Hcols Hprior df q.
  rewrite (validator_Ok qid self clk db tsid w columns Hcols).
  eexists. split; [reflexivity|].
  unfold write_back. apply in_list_In in Hprior. rewrite Hprior.
  fold df q.
  destruct (retry_cases db q df w) as [[Hall E]|(j & Hj & Hf & Hs & E)];
    rewrite E.
  - left. simpl. auto.
  - right. exists j. repeat split; try assumption.
    simpl. now rewrite <- !app_assoc.
Qed.

(** C9.  When the consensus vendor is not among the vendors of the
    stored rows of the tsid, no stored row of the tsid carries its id,
    and the run makes one call, the append of [consensus_price_df]: no
    delete is issued, and the rows follow the stored ones once the append
    goes through. *)
Theorem C9_no_prior_rows_pure_insert :
  forall qid self clk db tsid w columns,
    table_columns (table self) = Ok columns ->
    ~ In (qid "pySecMaster_Consensus")
         (unique_sources (query_all_tsid_prices tsid w)) ->
    let df := consensus_price_df qid self clk tsid columns
                (query_all_tsid_prices tsid w) in
    (forall r, In r (query_all_tsid_prices tsid w) ->
               data_vendor_id r <> qid "pySecMaster_Consensus")
    /\ exists w',
        validator qid self clk db tsid w = Ok w'
        /\ calls w' = calls w ++ [Append df (append_succeeds db)]
        /\ (forall q ok, ~ In (Delete q ok) [Append df (append_succeeds db)])
        /\ rows w' = if append_succeeds db then rows w ++ df else rows w.
Proof.
  intros qid self clk db tsid w columns Hcols Hnone df. split.
  - intros r Hr E. apply Hnone. unfold unique_sources.
    apply unique_In. rewrite <- E. now apply in_map.
  - rewrite (validator_Ok qid self clk db tsid w columns Hcols).
    eexists. split; [reflexivity|].
    unfold write_back. apply in_list_false in Hnone. rewrite Hnone.
    fold df. simpl. repeat split.
    intros q ok [H|[]]. discriminate.
Qed.

(** Every delete is refused: five calls, and the rows stay. *)
Lemma C5_witness :
  exists w',
    validator sample_vendor_id sample_self sample_clock always_fails
      "AAPL.Q.0" sample_world_prior = Ok w'
    /\ rows w' = rows sample_world_prior
    /\ List.length (calls w') = 5%nat.
Proof.
  destruct (C5_insert_only_after_confirmed_delete
              sample_vendor_id sample_self sample_clock always_fails
              "AAPL.Q.0" sample_world_prior
              ["open"; "high"; "low"; "close"; "volume"; "ex_dividend";
               "split_ratio"] eq_refl)
    as (w' & E & [(_ & Hc & Hr)|(j & _ & _ & Hs & _)]).
  - simpl. tauto.
  - exists w'. rewrite Hc. auto.
  - discriminate Hs.
Defined.

(** No consensus row is stored yet: one call, and a third row for the
    date. *)
Lemma C9_witness :
  exists w',
    validator sample_vendor_id sample_self sample_clock always_fails
      "AAPL.Q.0" sample_world_fresh = Ok w'
    /\ List.length (calls w') = 1%nat
    /\ map date (rows w') = [5; 5; 5].
Proof.
  destruct (C9_no_prior_rows_pure_insert
              sample_vendor_id sample_self sample_clock always_fails
              "AAPL.Q.0" sample_world_fresh
              ["open"; "high"; "low"; "close"; "volume"; "ex_dividend";
               "split_ratio"] eq_refl)
    as (_ & w' & E & Hc & _ & Hr).
  - simpl. intros [H|[H|[]]]; discriminate H.
  - exists w'. rewrite Hc, Hr. auto.
Defined.

(** ** Rows kept and rows replaced *)

(** What a run leaves in the table: the stored rows, without the rows
    the delete selects when a delete went through, followed by
    [consensus_price_df] when the append went through. *)
Lemma write_back_rows qid self clk db tsid tsid_prices_df df w :
  exists deleted appended : bool,
    rows (write_back qid self clk db tsid tsid_prices_df df w)
    = (if deleted
       then filter (fun r => negb (where_clause
                                     (delete_query_of qid self clk tsid) r))
                   (rows w)
       else rows w)
      ++ (if appended then df else []).
Proof.
  unfold write_back.
  destruct (in_list _ (unique_sources tsid_prices_df)).
  - destruct (retry_cases db (delete_query_of qid self clk tsid) df w)
      as [[_ E]|(j & _ & _ & _ & E)]; rewrite E; simpl.
    + exists false, false. now rewrite app_nil_r.
    + exists true, (append_succeeds db).
      destruct (append_succeeds db); [reflexivity | now rewrite app_nil_r].
  - exists false, (append_succeeds db). simpl.
    destruct (append_succeeds db); [reflexivity | now rewrite app_nil_r].
Qed.

(** C6.  The code misses the period of 0 days.  The docstring of
    [__init__] has only [None] stand for the entire history, and the
    comment at line 124 limits the dates "if a period is provided", but
    [if self.period] tests the truth value and reads 0 like [None].
    With [period = 0] and the clock at day 100, the date 5 is not after
    [now - 0 days], yet it gets a consensus row, and the delete carries
    no date bound. *)
Lemma C6_zero_period_is_no_window :
  let self0 := init sample_vendor_id "daily_prices" (Some 0) example_weights in
  period self0 = Some 0
  /\ (5 >? now_beg sample_clock - timedelta_days 0) = false
  /\ map date (consensus_price_df sample_vendor_id self0 sample_clock
                 "AAPL.Q.0" ["open"; "close"]
                 (query_all_tsid_prices "AAPL.Q.0" sample_world_prior)) = [5]
  /\ q_date_after (delete_query_of sample_vendor_id self0 sample_clock
                     "AAPL.Q.0") = None
  /\ ~ (forall d,
          In d (map date (consensus_price_df sample_vendor_id self0
                            sample_clock "AAPL.Q.0" ["open"; "close"]
                            (query_all_tsid_prices "AAPL.Q.0"
                               sample_world_prior))) ->
          now_beg sample_clock - timedelta_days 0 < d).
Proof.
  repeat split. intros H. specialize (H 5 (or_introl eq_refl)).
  revert H. apply Z.le_ngt. discriminate.
Qed.

(** X14.  With a trailing period of [n] days, [n] not 0, and
    [beg] the clock reading of line 127 less [n] days: the dates that get
    a consensus row are exactly the dates of the stored rows of the tsid
    that lie strictly after [beg], one row each; the delete selects only
    rows dated strictly after [beg]; and after the run the table holds,
    among the rows dated [beg] or earlier, the rows it held before. *)
Theorem X14_nonzero_period_window :
  forall qid self clk db tsid w columns n,
    table_columns (table self) = Ok columns ->
    period self = Some n ->
    n <> 0 ->
    let beg := now_beg clk - timedelta_days n in
    let tsid_prices_df := query_all_tsid_prices tsid w in
    let df := consensus_price_df qid self clk tsid columns tsid_prices_df in
    (forall d, In d (map date df) <->
               In d (map date tsid_prices_df) /\ beg < d)
    /\ NoDup (map date df)
    /\ q_date_after (delete_query_of qid self clk tsid) = Some beg
    /\ (forall r, where_clause (delete_query_of qid self clk tsid) r = true ->
                  beg < date r)
    /\ exists w',
        validator qid self clk db tsid w = Ok w'
        /\ filter (fun r => date r <=? beg) (rows w')
           = filter (fun r => date r <=? beg) (rows w).
Proof.
  intros qid self clk db tsid w columns n Hcols Hp Hn beg T df.
  assert (Ht : truthy (period self) = true).
  { rewrite Hp. simpl. now apply negb_true_iff, Z.eqb_neq. }
  assert (Hbeg : beg_date self clk = beg).
  { unfold beg_date. now rewrite Hp. }
  assert (Hdates : map date df = filter (fun d => d >? beg) (unique (map date T))).
  { unfold df. rewrite consensus_price_df_dates. unfold unique_dates.
    now rewrite Ht, Hbeg. }
  assert (Hq : delete_query_of qid self clk tsid
               = {| q_source_id := tsid;
                    q_data_vendor_id := qid "pySecMaster_Consensus";
                    q_date_after := Some beg |}).
  { unfold delete_query_of. now rewrite Ht, Hbeg. }
  assert (Hwhere : forall r,
             where_clause (delete_query_of qid self clk tsid) r = true ->
             beg < date r).
  { intros r H. rewrite Hq in H. unfold where_clause in H. simpl in H.
    apply andb_true_iff in H. destruct H as [_ H]. lia. }
  split; [|split; [|split; [|split; [exact Hwhere|]]]].
  - intros d. rewrite Hdates, filter_In, unique_In. split.
    + intros [H1 H2]. split; [exact H1 | lia].
    + intros [H1 H2]. split; [exact H1 | lia].
  - rewrite Hdates. apply NoDup_filter, unique_NoDup.
  - now rewrite Hq.
  - rewrite (validator_Ok qid self clk db tsid w columns Hcols).
    eexists. split; [reflexivity|]. fold T df.
    destruct (write_back_rows qid self clk db tsid T df w)
      as (deleted & appended & E).
    rewrite E, filter_app.
    assert (Hdf : filter (fun r => date r <=? beg) df = []).
    { apply filter_none. intros r Hr.
      assert (Hd : In (date r) (map date df)) by now apply in_map.
      rewrite Hdates, filter_In in Hd. lia. }
    assert (Hnew : filter (fun r => date r <=? beg)
                     (if appended then df else []) = []).
    { destruct appended; [exact Hdf | reflexivity]. }
    rewrite Hnew, app_nil_r.
    destruct deleted; [|reflexivity].
    apply filter_filter_implied. intros r Hr.
    destruct (where_clause (delete_query_of qid self clk tsid) r) eqn:Ew;
      [|reflexivity].
    apply Hwhere in Ew. lia.
Qed.

(** A period of 30 days at day 100: the rows of day 50 stay as they
    are, the consensus row included. *)
Lemma X14_witness :
  exists w',
    validator sample_vendor_id sample_self_window sample_clock third_time
      "AAPL.Q.0" sample_world_window = Ok w'
    /\ filter (fun r => date r <=? timedelta_days 70) (rows w')
       = [sample_row 1 (timedelta_days 50) (Some 10);
          sample_row 15 (timedelta_days 50) (Some 10)].
Proof.
  destruct (X14_nonzero_period_window
              sample_vendor_id sample_self_window sample_clock third_time
              "AAPL.Q.0" sample_world_window
              ["open"; "high"; "low"; "close"; "volume"; "ex_dividend";
               "split_ratio"] 30 eq_refl eq_refl)
    as (_ & _ & _ & _ & w' & E & Hold).
  - discriminate.
  - exists w'. split; [exact E | exact Hold].
Defined.

(** ** Two runs in a row *)

Section TwoRuns.

Variable qid : string -> vendor_id.
Variable self : CrossValidate.
Variable tsid : string.
Variable columns : list string.

Hypothesis no_period : truthy (period self) = false.
Hypothesis consensus_excluded :
  In (qid "pySecMaster_Consensus") (source_id_exclude_list self).

Local Abbreviation q_all :=
  (delete_all (qid "pySecMaster_Consensus") tsid).

Lemma delete_query_unrestricted clk :
  delete_query_of qid self clk tsid = q_all.
Proof. unfold delete_query_of. now rewrite no_period. Qed.

Lemma unique_dates_unrestricted clk df :
  unique_dates self clk df = unique (map date df).
Proof. unfold unique_dates. now rewrite no_period. Qed.

(** The rows of [consensus_price_df] are rows of the tsid, carry the
    consensus vendor's id and are selected by the delete. *)
Lemma consensus_price_df_row clk df r :
  In r (consensus_price_df qid self clk tsid columns df) ->
  where_clause q_all r = true
  /\ data_vendor_id r = qid "pySecMaster_Consensus"
  /\ ((source_id r =? tsid)%string && (source r =? "tsid")%string) = true.
Proof.
  unfold consensus_price_df. rewrite in_map_iff. intros (d & <- & _).
  unfold where_clause. simpl. now rewrite String.eqb_refl, Z.eqb_refl.
Qed.

Lemma where_excluded r :
  where_clause q_all r = true ->
  not_excluded (source_id_exclude_list self) r = false.
Proof.
  unfold where_clause, not_excluded. simpl. rewrite andb_true_r.
  intros H. apply andb_true_iff in H. destruct H as [_ H].
  apply Z.eqb_eq in H. rewrite H. apply negb_false_iff.
  now apply in_list_In.
Qed.

Lemma where_tsid r :
  where_clause q_all r = true ->
  ((source_id r =? tsid)%string && (source r =? "tsid")%string) = true
  /\ data_vendor_id r = qid "pySecMaster_Consensus".
Proof.
  unfold where_clause. simpl. rewrite andb_true_r. intros H.
  apply andb_true_iff in H. destruct H as [H1 H2].
  split; [exact H1 | now apply Z.eqb_eq].
Qed.

Lemma unstamped_df clk df :
  map unstamped (consensus_price_df qid self clk tsid columns df)
  = map (fun d =>
           {| data_vendor_id := qid "pySecMaster_Consensus";
              source := "tsid"; source_id := tsid; date := d;
              fields := cell (consensus_cells self columns (xs d df));
              updated_date := 0 |})
        (unique (map date df)).
Proof.
  unfold consensus_price_df. rewrite map_map, unique_dates_unrestricted.
  reflexivity.
Qed.

(** Tables with the same rows of counted vendors and the same dates
    give the same consensus rows, up to their order and their stamp. *)
Lemma consensus_price_df_stable clk1 clk2 df1 df2 :
  filter (not_excluded (source_id_exclude_list self)) df2
  = filter (not_excluded (source_id_exclude_list self)) df1 ->
  (forall d, In d (map date df2) <-> In d (map date df1)) ->
  Permutation
    (map unstamped (consensus_price_df qid self clk2 tsid columns df2))
    (map unstamped (consensus_price_df qid self clk1 tsid columns df1)).
Proof.
  intros Hrows Hdates. rewrite !unstamped_df.
  rewrite (map_ext
             (fun d =>
                {| data_vendor_id := qid "pySecMaster_Consensus";
                   source := "tsid"; source_id := tsid; date := d;
                   fields := cell (consensus_cells self columns (xs d df2));
                   updated_date := 0 |})
             (fun d =>
                {| data_vendor_id := qid "pySecMaster_Consensus";
                   source := "tsid"; source_id := tsid; date := d;
                   fields := cell (consensus_cells self columns (xs d df1));
                   updated_date := 0 |})).
  - apply Permutation_map. apply NoDup_Permutation.
    + apply unique_NoDup.
    + apply unique_NoDup.
    + intros d. now rewrite !unique_In.
  - intros d. f_equal. f_equal.
    rewrite <- (consensus_cells_drop_excluded self columns d df2).
    rewrite <- (consensus_cells_drop_excluded self columns d df1).
    now rewrite Hrows.
Qed.

(** What the next run reads after a run that stored its output: the
    rows of the other vendors, then the output. *)
Lemma stored_then_read clk w w1 :
  rows w1 = filter (fun r => negb (where_clause q_all r)) (rows w)
            ++ consensus_price_df qid self clk tsid columns
                 (query_all_tsid_prices tsid w) ->
  query_all_tsid_prices tsid w1
  = filter (fun r => negb (where_clause q_all r))
           (query_all_tsid_prices tsid w)
    ++ consensus_price_df qid self clk tsid columns
         (query_all_tsid_prices tsid w).
Proof.
  intros Hrows. unfold query_all_tsid_prices at 1. rewrite Hrows.
  rewrite filter_app, filter_comm. f_equal.
  apply filter_all. intros r Hr.
  now apply consensus_price_df_row in Hr.
Qed.

(** ... and the consensus rows in the table are that output. *)
Lemma stored_consensus_rows clk w w1 :
  rows w1 = filter (fun r => negb (where_clause q_all r)) (rows w)
            ++ consensus_price_df qid self clk tsid columns
                 (query_all_tsid_prices tsid w) ->
  consensus_rows (qid "pySecMaster_Consensus") tsid w1
  = consensus_price_df qid self clk tsid columns
      (query_all_tsid_prices tsid w).
Proof.
  intros Hrows. unfold consensus_rows. rewrite Hrows, filter_app.
  rewrite filter_none.
  - simpl. apply filter_all. intros r Hr.
    now apply consensus_price_df_row in Hr.
  - intros r Hr. apply filter_In in Hr. destruct Hr as [_ Hr].
    now apply negb_true_iff.
Qed.

(** Without the consensus vendor among the vendors of the tsid the
    delete would select nothing. *)
Lemma no_prior_rows w :
  ~ In (qid "pySecMaster_Consensus")
       (unique_sources (query_all_tsid_prices tsid w)) ->
  filter (fun r => negb (where_clause q_all r)) (rows w) = rows w.
Proof.
  intros Hnone. apply filter_all. intros r Hr.
  destruct (where_clause q_all r) eqn:E; [|reflexivity].
  exfalso. apply Hnone. apply where_tsid in E. destruct E as [Ht <-].
  unfold unique_sources. apply unique_In, in_map.
  unfold query_all_tsid_prices. apply filter_In. auto.
Qed.

(** A run that stores its output. *)
Lemma run_stores clk db w :
  append_succeeds db = true ->
  (In (qid "pySecMaster_Consensus")
      (unique_sources (query_all_tsid_prices tsid w)) ->
   exists j, (j < 5)%nat /\ delete_succeeds db j = true) ->
  rows (write_back qid self clk db tsid (query_all_tsid_prices tsid w)
          (consensus_price_df qid self clk tsid columns
             (query_all_tsid_prices tsid w)) w)
  = filter (fun r => negb (where_clause q_all r)) (rows w)
    ++ consensus_price_df qid self clk tsid columns
         (query_all_tsid_prices tsid w).
Proof.
  intros Happ Hdel. unfold write_back.
  destruct (in_list _ (unique_sources (query_all_tsid_prices tsid w)))
    eqn:Ein.
  - apply in_list_In in Ein. destruct (Hdel Ein) as (j & Hj & Hs).
    rewrite delete_query_unrestricted.
    destruct (retry_cases db q_all
                (consensus_price_df qid self clk tsid columns
                   (query_all_tsid_prices tsid w)) w)
      as [[Hall _]|(j' & _ & _ & _ & E)].
    + rewrite (Hall j Hj) in Hs. discriminate.
    + rewrite E. simpl. now rewrite Happ.
  - apply in_list_false in Ein. simpl. rewrite Happ.
    now rewrite (no_prior_rows w Ein).
Qed.

(** Any run: nothing changes, or the output replaces the consensus
    rows, or (no consensus vendor among the vendors) the output is
    appended. *)
Lemma run_outcome clk db w :
  append_succeeds db = true ->
  let df := consensus_price_df qid self clk tsid columns
              (query_all_tsid_prices tsid w) in
  let w' := write_back qid self clk db tsid
              (query_all_tsid_prices tsid w) df w in
  rows w' = rows w
  \/ rows w' = filter (fun r => negb (where_clause q_all r)) (rows w) ++ df.
Proof.
  intros Happ df w'. unfold w', write_back.
  destruct (in_list _ (unique_sources (query_all_tsid_prices tsid w)))
    eqn:Ein.
  - rewrite delete_query_unrestricted.
    destruct (retry_cases db q_all df w)
      as [[_ E]|(j' & _ & _ & _ & E)]; rewrite E; simpl.
    + now left.
    + right. now rewrite Happ.
  - apply in_list_false in Ein. right. simpl. rewrite Happ.
    now rewrite (no_prior_rows w Ein).
Qed.

End TwoRuns.

(** C7 as stated fails when the database refuses the append of the
    second run: [df_to_sql] is called once, after the delete, and its
    outcome is not looked at.  The first run stores one consensus row
    for the tsid; the second run on the same table gets its first delete
    through and its append refused, and no consensus row is left. *)
Lemma C7_refused_append_leaves_no_rows :
  let w1 := sample_run sample_clock third_time sample_world_prior in
  let w2 := sample_run sample_clock_later append_refused w1 in
  map date (consensus_rows 15 "AAPL.Q.0" w1) = [5]
  /\ consensus_rows 15 "AAPL.Q.0" w2 = []
  /\ ~ Permutation (map unstamped (consensus_rows 15 "AAPL.Q.0" w2))
                   (map unstamped (consensus_rows 15 "AAPL.Q.0" w1)).
Proof.
  repeat split. intros H.
  apply Permutation_length in H. discriminate H.
Qed.

(** C7, amended.  Two runs in a row on a supported table, without a
    trailing period and with the consensus vendor in the exclude list
    (as [__init__] builds it), on a table that no one else writes to.
    When the first run has stored its output (its append went through,
    after a confirmed delete where there were prior consensus rows) and
    the append of the second run goes through, then the consensus rows
    of the tsid in the table after the first run are that output, and
    after the second run the table holds the same consensus rows for the
    tsid up to their order, equal in vendor id, source, tsid, date and
    every price field.  As to [updated_date], the clock reading of the
    run that wrote the row: either the second run left the rows as they
    were, or every row carries the second run's reading. *)
Theorem C7_second_run_keeps_consensus_rows :
  forall qid self columns tsid clk1 clk2 db1 db2 w0 w1 w2,
    table_columns (table self) = Ok columns ->
    truthy (period self) = false ->
    In (qid "pySecMaster_Consensus") (source_id_exclude_list self) ->
    validator qid self clk1 db1 tsid w0 = Ok w1 ->
    validator qid self clk2 db2 tsid w1 = Ok w2 ->
    append_succeeds db1 = true ->
    (In (qid "pySecMaster_Consensus")
        (unique_sources (query_all_tsid_prices tsid w0)) ->
     exists j, (j < 5)%nat /\ delete_succeeds db1 j = true) ->
    append_succeeds db2 = true ->
    consensus_rows (qid "pySecMaster_Consensus") tsid w1
    = consensus_price_df qid self clk1 tsid columns
        (query_all_tsid_prices tsid w0)
    /\ Permutation
         (map unstamped (consensus_rows (qid "pySecMaster_Consensus") tsid w2))
         (map unstamped (consensus_rows (qid "pySecMaster_Consensus") tsid w1))
    /\ (consensus_rows (qid "pySecMaster_Consensus") tsid w2
        = consensus_rows (qid "pySecMaster_Consensus") tsid w1
        \/ forall r,
             In r (consensus_rows (qid "pySecMaster_Consensus") tsid w2) ->
             updated_date r = now_updated clk2).
Proof.
  intros qid self columns tsid clk1 clk2 db1 db2 w0 w1 w2
         Hcols Hnp Hex Hrun1 Hrun2 Happ1 Hdel1 Happ2.
  rewrite (validator_Ok qid self clk1 db1 tsid w0 columns Hcols) in Hrun1.
  rewrite (validator_Ok qid self clk2 db2 tsid w1 columns Hcols) in Hrun2.
  injection Hrun1 as Hw1. injection Hrun2 as Hw2.
  set (V := qid "pySecMaster_Consensus") in *.
  set (T0 := query_all_tsid_prices tsid w0) in *.
  set (df1 := consensus_price_df qid self clk1 tsid columns T0) in *.
  pose proof (run_stores qid self tsid columns Hnp clk1 db1 w0 Happ1 Hdel1)
    as Hrows1.
  fold T0 df1 in Hrows1. rewrite Hw1 in Hrows1.
  pose proof (stored_then_read qid self tsid columns clk1 w0 w1 Hrows1)
    as Hread.
  pose proof (stored_consensus_rows qid self tsid columns clk1 w0 w1 Hrows1)
    as Hcons1.
  fold T0 df1 V in Hread, Hcons1.
  split; [exact Hcons1|].
  set (T1 := query_all_tsid_prices tsid w1) in *.
  set (df2 := consensus_price_df qid self clk2 tsid columns T1) in *.
  (* the second run computes the rows of the first *)
  assert (Hstable : Permutation (map unstamped df2) (map unstamped df1)).
  { apply (consensus_price_df_stable qid self tsid columns Hnp).
    - rewrite Hread, filter_app.
      rewrite (filter_none (not_excluded (source_id_exclude_list self)) df1).
      + rewrite app_nil_r. apply filter_filter_implied.
        intros r Hr. apply negb_true_iff.
        destruct (where_clause (delete_all V tsid) r) eqn:E; [|reflexivity].
        apply (where_excluded qid self tsid Hex) in E. congruence.
      + intros r Hr. apply (where_excluded qid self tsid Hex).
        now apply (consensus_price_df_row qid self tsid columns clk1 T0).
    - intros d. rewrite Hread, map_app, in_app_iff. split.
      + intros [H|H].
        * apply in_map_iff in H. destruct H as (r & <- & Hr).
          apply filter_In in Hr. now apply in_map.
        * unfold df1 in H. rewrite consensus_price_df_dates in H.
          rewrite (unique_dates_unrestricted self Hnp) in H.
          exact (proj1 (unique_In _ _) H).
      + intros H. right. unfold df1.
        rewrite consensus_price_df_dates.
        rewrite (unique_dates_unrestricted self Hnp).
        exact (proj2 (unique_In _ _) H). }
  pose proof (run_outcome qid self tsid columns Hnp clk2 db2 w1 Happ2)
    as Hout.
  simpl in Hout. fold T1 df2 in Hout. rewrite Hw2 in Hout.
  destruct Hout as [Hsame|Hrepl].
  - unfold consensus_rows. rewrite Hsame. split; [reflexivity | now left].
  - pose proof (stored_consensus_rows qid self tsid columns clk2 w1 w2 Hrepl)
      as Hcons2.
    fold V T1 df2 in Hcons2. rewrite Hcons2, Hcons1.
    split; [exact Hstable|]. right. intros r Hr.
    unfold df2, consensus_price_df in Hr. apply in_map_iff in Hr.
    destruct Hr as (d & <- & _). reflexivity.
Qed.

(** Two runs on the sample table, the third delete of each going
    through. *)
Lemma C7_witness :
  Permutation
    (map unstamped
       (consensus_rows 15 "AAPL.Q.0"
          (sample_run sample_clock_later third_time
             (sample_run sample_clock third_time sample_world_prior))))
    (map unstamped
       (consensus_rows 15 "AAPL.Q.0"
          (sample_run sample_clock third_time sample_world_prior))).
Proof.
  eapply proj1. eapply proj2.
  apply (C7_second_run_keeps_consensus_rows
           sample_vendor_id sample_self
           ["open"; "high"; "low"; "close"; "volume"; "ex_dividend";
            "split_ratio"]
           "AAPL.Q.0" sample_clock sample_clock_later
           third_time third_time sample_world_prior
           (sample_run sample_clock third_time sample_world_prior)
           (sample_run sample_clock_later third_time
              (sample_run sample_clock third_time sample_world_prior))).
  - reflexivity.
  - reflexivity.
  - left. reflexivity.
  - reflexivity.
  - reflexivity.
  - reflexivity.
  - intros _. exists 2%nat. split; [lia | reflexivity].
  - reflexivity.
Defined.

(** * Further properties of the vote *)

Lemma py_max_decomposed before x after :
  (forall y, In y before -> snd y < snd x) ->
  (forall y, In y after -> snd y <= snd x) ->
  py_max (before ++ x :: after) = Some x.
Proof.
  intros Hb Ha. destruct before as [|b0 b']; simpl.
  - now rewrite max_from_stable.
  - rewrite max_from_first; [reflexivity | | | exact Ha].
    + intros y Hy. apply Hb. now right.
    + apply Hb. now left.
Qed.

Lemma setitem_at k x w0 (b a : Dict.t) :
  ~ In k (Dict.keys b) ->
  Dict.setitem k x (b ++ (k, w0) :: a) = b ++ (k, x) :: a.
Proof.
  induction b as [|[k' w'] r IH]; simpl; intros Hn.
  - now rewrite Z.eqb_refl.
  - destruct (Z.eqb_spec k' k) as [->|Hne]; [tauto|].
    rewrite IH; [reflexivity | tauto].
Qed.

(** The winner of a tally that is not empty: a bucket of the tally that
    no bucket outweighs. *)
Lemma field_consensus_winner excl ws fd :
  field_consensus excl ws fd <> [] ->
  let c := consensus_value excl ws fd in
  In (c, accumulated excl ws c fd) (field_consensus excl ws fd)
  /\ forall v w, In (v, w) (field_consensus excl ws fd) ->
                 w <= accumulated excl ws c fd.
Proof.
  intros Hne c. unfold c, consensus_value, consensus_of.
  destruct (py_max (field_consensus excl ws fd)) as [[cv cw]|] eqn:E.
  - pose proof (py_max_In _ _ E) as Hc. simpl.
    rewrite <- (field_consensus_weight excl ws fd cv cw Hc).
    split; [exact Hc|]. intros v w Hin.
    exact (py_max_ge _ (cv, cw) (v, w) E Hin).
  - destruct (field_consensus excl ws fd); [contradiction | discriminate].
Qed.

Lemma field_consensus_nil excl ws fd :
  field_consensus excl ws fd = [] <->
  forall sd, In sd fd -> vote excl ws sd = None.
Proof.
  split.
  - intros E sd Hin. destruct (vote excl ws sd) as [[v w]|] eqn:Ev;
      [|reflexivity].
    assert (H : In v (Dict.keys (field_consensus excl ws fd)))
      by (apply field_consensus_keys; eauto).
    rewrite E in H. destruct H.
  - intros Hall.
    destruct (field_consensus excl ws fd) as [|[k w] r] eqn:E;
      [reflexivity|].
    assert (H : In k (Dict.keys (field_consensus excl ws fd)))
      by (rewrite E; now left).
    apply field_consensus_keys in H. destruct H as (sd & w' & Hin & Hv).
    rewrite (Hall sd Hin) in Hv. discriminate.
Qed.

(** X1.  The consensus value is never made up: the tally is empty
    exactly when no observation counts (every vendor excluded, without
    value or without weight row), and then the value is -1; otherwise
    the value is the one reported by some observation that counts. *)
Theorem X1_consensus_is_reported_or_fallback :
  forall excl ws fd,
    (field_consensus excl ws fd = [] <->
     forall sd, In sd fd -> vote excl ws sd = None)
    /\ (field_consensus excl ws fd = [] -> consensus_value excl ws fd = -1)
    /\ (field_consensus excl ws fd <> [] ->
        exists vid w,
          In (vid, Some (consensus_value excl ws fd)) fd
          /\ in_list vid excl = false
          /\ iloc0 (loc_consensus_weight ws vid) = Some w).
Proof.
  intros excl ws fd. split; [apply field_consensus_nil|]. split.
  - intros E. unfold consensus_value. now rewrite E.
  - intros Hne.
    destruct (field_consensus_winner excl ws fd Hne) as [Hin _].
    assert (Hk : In (consensus_value excl ws fd)
                    (Dict.keys (field_consensus excl ws fd))).
    { change (consensus_value excl ws fd)
        with (fst (consensus_value excl ws fd,
                   accumulated excl ws (consensus_value excl ws fd) fd)).
      unfold Dict.keys. now apply in_map. }
    apply field_consensus_keys in Hk. destruct Hk as ([vid o] & w & Hsd & Hv).
    apply vote_Some in Hv. simpl in Hv. destruct Hv as (Hex & Ho & Hw).
    subst o. exists vid, w. auto.
Qed.

Lemma X1_witness :
  exists vid w,
    In (vid, Some (consensus_value [15] example_weights
                     [(15, Some 9); (2, Some 11); (7, Some 12)]))
       [(15, Some 9); (2, Some 11); (7, Some 12)]
    /\ in_list vid [15] = false
    /\ iloc0 (loc_consensus_weight example_weights vid) = Some w.
Proof.
  apply (proj2 (proj2 (X1_consensus_is_reported_or_fallback
                         [15] example_weights
                         [(15, Some 9); (2, Some 11); (7, Some 12)]))).
  discriminate.
Defined.

Lemma fold_left_pointwise {A B} (f g : A -> B -> A) l a :
  (forall x y, f x y = g x y) -> fold_left f l a = fold_left g l a.
Proof.
  intros H. revert a. induction l as [|y r IH]; intros a; simpl;
    [reflexivity|].
  now rewrite H, IH.
Qed.

Lemma loc_consensus_weight_app ws extra vid :
  loc_consensus_weight (ws ++ extra) vid
  = loc_consensus_weight ws vid ++ loc_consensus_weight extra vid.
Proof.
  unfold loc_consensus_weight. now rewrite filter_app, map_app.
Qed.

Lemma loc_consensus_weight_nil ws vid :
  loc_consensus_weight ws vid = [] <->
  forall r, In r ws -> w_data_vendor_id r <> vid.
Proof.
  unfold loc_consensus_weight. split.
  - intros E r Hr Hv.
    assert (H : In (consensus_weight r)
                   (map consensus_weight
                      (filter (fun r => w_data_vendor_id r =? vid) ws))).
    { apply in_map, filter_In. split; [exact Hr | now apply Z.eqb_eq]. }
    rewrite E in H. destruct H.
  - intros H. rewrite filter_none; [reflexivity|].
    intros r Hr. apply Z.eqb_neq. now apply H.
Qed.

(** X3.  Of several weight rows of one vendor the first one counts.
    Rows added to the weight table after the rows it has, for vendors it
    already lists, change no tally. *)
Theorem X3_first_weight_row_counts :
  forall excl ws extra,
    (forall r, In r extra ->
               exists r0, In r0 ws /\ w_data_vendor_id r0 = w_data_vendor_id r) ->
    (forall vid, iloc0 (loc_consensus_weight (ws ++ extra) vid)
                 = iloc0 (loc_consensus_weight ws vid))
    /\ (forall fd, field_consensus excl (ws ++ extra) fd
                   = field_consensus excl ws fd).
Proof.
  intros excl ws extra Hlisted.
  assert (Hw : forall vid, iloc0 (loc_consensus_weight (ws ++ extra) vid)
                           = iloc0 (loc_consensus_weight ws vid)).
  { intros vid. rewrite loc_consensus_weight_app.
    destruct (loc_consensus_weight ws vid) as [|w r] eqn:E; [|reflexivity].
    simpl. replace (loc_consensus_weight extra vid) with (@nil Z);
      [reflexivity|].
    symmetry. apply loc_consensus_weight_nil. intros r Hr Hv.
    destruct (Hlisted r Hr) as (r0 & Hr0 & E0).
    apply (proj1 (loc_consensus_weight_nil ws vid) E r0 Hr0). congruence. }
  split; [exact Hw|].
  intros fd. unfold field_consensus. apply fold_left_pointwise.
  intros fc sd. rewrite !tally_source_vote. unfold vote.
  now rewrite Hw.
Qed.

(** A second row gives vendor 1 the weight 9; the vote still reads 3. *)
Lemma X3_witness :
  field_consensus [15] (example_weights ++ [mk_weight 1 9])
    [(1, Some 10); (3, Some 11)]
  = field_consensus [15] example_weights [(1, Some 10); (3, Some 11)].
Proof.
  apply (proj2 (X3_first_weight_row_counts [15] example_weights
                  [mk_weight 1 9]
                  (fun r H =>
                     match H with
                     | or_introl E =>
                         ex_intro _ (mk_weight 1 3)
                           (conj (or_introl eq_refl)
                                 (f_equal w_data_vendor_id E))
                     | or_intror F => match F with end
                     end))).
Defined.

(** X4.  Support does not unseat the winner.  One more observation that
    reports the current consensus value, from a counted vendor whose
    weight is not negative, leaves the consensus value as it is. *)
Theorem X4_support_keeps_the_winner :
  forall excl ws fd vid w,
    in_list vid excl = false ->
    iloc0 (loc_consensus_weight ws vid) = Some w ->
    0 <= w ->
    consensus_value excl ws
      (fd ++ [(vid, Some (consensus_value excl ws fd))])
    = consensus_value excl ws fd.
Proof.
  intros excl ws fd vid w Hex Hw Hpos.
  set (v := consensus_value excl ws fd).
  assert (Hv : vote excl ws (vid, Some v) = Some (v, w)).
  { unfold vote. simpl. now rewrite Hex, Hw. }
  unfold consensus_value at 1. unfold field_consensus.
  rewrite fold_left_app. simpl. fold (field_consensus excl ws fd).
  rewrite tally_source_vote, Hv.
  unfold v, consensus_value, consensus_of.
  destruct (py_max (field_consensus excl ws fd)) as [[cv cw]|] eqn:E.
  - simpl.
    destruct (py_max_first _ _ E) as (b & a & Eb & Hb & Ha).
    simpl in Hb, Ha.
    pose proof (field_consensus_NoDup excl ws fd) as Hnd.
    rewrite Eb in Hnd. rewrite Eb.
    assert (Hnb : ~ In cv (Dict.keys b)).
    { unfold Dict.keys in Hnd. rewrite map_app in Hnd.
      simpl in Hnd. apply NoDup_remove_2 in Hnd.
      intros H. apply Hnd. apply in_or_app. now left. }
    rewrite (setitem_at cv _ cw b a Hnb).
    rewrite py_max_decomposed; [reflexivity | |].
    + intros y Hy. simpl. specialize (Hb y Hy).
      rewrite (DictFacts.getitem_In cv cw (b ++ (cv, cw) :: a) Hnd).
      * lia.
      * apply in_or_app. right. now left.
    + intros y Hy. simpl. specialize (Ha y Hy).
      rewrite (DictFacts.getitem_In cv cw (b ++ (cv, cw) :: a) Hnd).
      * lia.
      * apply in_or_app. right. now left.
  - destruct (field_consensus excl ws fd); [reflexivity | discriminate].
Qed.

(** 11 leads by 4 to 3; vendor 2 (weight 2) joins 11. *)
Lemma X4_witness :
  consensus_value [15] example_weights
    ([(1, Some 10); (3, Some 11)]
       ++ [(2, Some (consensus_value [15] example_weights
                       [(1, Some 10); (3, Some 11)]))])
  = consensus_value [15] example_weights [(1, Some 10); (3, Some 11)].
Proof.
  apply (X4_support_keeps_the_winner [15] example_weights
           [(1, Some 10); (3, Some 11)] 2 2).
  - reflexivity.
  - reflexivity.
  - lia.
Defined.

(** X5.  When the observations that count all report one value, the
    tally is the single bucket of that value and the value is the
    consensus, whatever the weights are (zero and negative weights
    included). *)
Theorem X5_unanimous_value_wins :
  forall excl ws fd v,
    (exists sd w, In sd fd /\ vote excl ws sd = Some (v, w)) ->
    (forall sd x w, In sd fd -> vote excl ws sd = Some (x, w) -> x = v) ->
    field_consensus excl ws fd = [(v, accumulated excl ws v fd)]
    /\ consensus_value excl ws fd = v.
Proof.
  intros excl ws fd v Hsome Hall.
  assert (Hkeys : forall k, In k (Dict.keys (field_consensus excl ws fd)) ->
                            k = v).
  { intros k Hk. apply field_consensus_keys in Hk.
    destruct Hk as (sd & w & Hin & Hv). exact (Hall sd k w Hin Hv). }
  assert (Hv : In v (Dict.keys (field_consensus excl ws fd)))
    by now apply field_consensus_keys.
  pose proof (field_consensus_NoDup excl ws fd) as Hnd.
  pose proof (field_consensus_weight excl ws fd) as Hw.
  unfold consensus_value.
  destruct (field_consensus excl ws fd) as [|[k w] [|[k2 w2] r]].
  - destruct Hv.
  - assert (k = v) by (apply Hkeys; now left). subst k.
    rewrite (Hw v w (or_introl eq_refl)). split; reflexivity.
  - exfalso.
    assert (k = v) by (apply Hkeys; now left).
    assert (k2 = v) by (apply Hkeys; right; now left).
    subst k k2. simpl in Hnd. inversion Hnd as [|? ? Hnot _].
    apply Hnot. now left.
Qed.

(** Vendors 1 and 2 agree on 10; the consensus vendor and a vendor
    without weight row say otherwise. *)
Lemma X5_witness :
  field_consensus [15] example_weights
    [(1, Some 10); (15, Some 9); (2, Some 10); (7, Some 12)] = [(10, 5)].
Proof.
  apply (proj1 (X5_unanimous_value_wins [15] example_weights
                  [(1, Some 10); (15, Some 9); (2, Some 10); (7, Some 12)]
                  10
                  (ex_intro _ (1, Some 10)
                     (ex_intro _ 3 (conj (or_introl eq_refl) eq_refl)))
                  ltac:(intros sd x w [<-|[<-|[<-|[<-|[]]]]] Hv;
                        vm_compute in Hv; congruence))).
Defined.

(** * Further properties of the rows and of the write-back *)

Lemma where_restricted_all qid self clk tsid r :
  where_clause (delete_query_of qid self clk tsid) r = true ->
  where_clause (delete_all (qid "pySecMaster_Consensus") tsid) r = true.
Proof.
  unfold delete_query_of, where_clause, delete_all.
  destruct (truthy (period self)); simpl; [|tauto].
  intros H. apply andb_true_iff in H. destruct H as [H _].
  now rewrite H.
Qed.

Lemma where_all_fields validator_id tsid r :
  where_clause (delete_all validator_id tsid) r = true <->
  ((source_id r =? tsid)%string && (source r =? "tsid")%string) = true
  /\ data_vendor_id r = validator_id.
Proof.
  unfold where_clause, delete_all. simpl. rewrite andb_true_r.
  rewrite andb_true_iff, Z.eqb_eq. tauto.
Qed.

(** Every row of [consensus_price_df] is a row the delete of the same
    run selects. *)
Lemma consensus_price_df_selected qid self clk tsid columns df r :
  In r (consensus_price_df qid self clk tsid columns df) ->
  where_clause (delete_query_of qid self clk tsid) r = true.
Proof.
  intros Hr.
  assert (Hd : In (date r) (unique_dates self clk df)).
  { rewrite <- (consensus_price_df_dates qid self clk tsid columns df).
    now apply in_map. }
  apply (consensus_price_df_row qid self tsid columns clk df) in Hr.
  destruct Hr as (Hall & _). revert Hall Hd.
  unfold delete_query_of, unique_dates, where_clause, delete_all.
  destruct (truthy (period self)); simpl; [|tauto].
  intros Hall Hd. apply filter_In in Hd. destruct Hd as [_ Hd].
  rewrite andb_true_r in Hall. now rewrite Hall, Hd.
Qed.

(** Whether a run deletes and whether it appends is settled by the
    answers of the database and by the vendors read, not by the rows. *)
Lemma write_back_rows_uniform qid self clk db tsid tsid_prices_df df :
  exists deleted appended : bool,
    (deleted = true ->
     In (qid "pySecMaster_Consensus") (unique_sources tsid_prices_df))
    /\ forall w,
        rows (write_back qid self clk db tsid tsid_prices_df df w)
        = (if deleted
           then filter (fun r => negb (where_clause
                                         (delete_query_of qid self clk tsid) r))
                       (rows w)
           else rows w)
          ++ (if appended then df else []).
Proof.
  unfold write_back.
  destruct (in_list _ (unique_sources tsid_prices_df)) eqn:Ein.
  - apply in_list_In in Ein.
    destruct (first_success (delete_succeeds db) 5)
      as [Hall|(j & Hj & Hf & Hs)].
    + exists false, false. split; [discriminate|]. intros w.
      rewrite retry_all_fail by exact Hall. simpl. now rewrite app_nil_r.
    + exists true, (append_succeeds db). split; [auto|]. intros w.
      rewrite (retry_first_success db _ df 5 0 j w Hj Hf Hs). simpl.
      destruct (append_succeeds db); [reflexivity | now rewrite app_nil_r].
  - exists false, (append_succeeds db). split; [discriminate|]. intros w.
    simpl.
    destruct (append_succeeds db); [reflexivity | now rewrite app_nil_r].
Qed.

(** A run leaves alone every row that is not a consensus row of its
    tsid. *)
Lemma validator_frame qid self clk db tsid w w' :
  validator qid self clk db tsid w = Ok w' ->
  filter (fun r => negb (where_clause
                           (delete_all (qid "pySecMaster_Consensus") tsid) r))
         (rows w')
  = filter (fun r => negb (where_clause
                             (delete_all (qid "pySecMaster_Consensus") tsid) r))
           (rows w).
Proof.
  unfold validator.
  destruct (table_columns (table self)) as [columns|]; [|discriminate].
  intros H. injection H as <-.
  destruct (write_back_rows qid self clk db tsid
              (query_all_tsid_prices tsid w)
              (consensus_price_df qid self clk tsid columns
                 (query_all_tsid_prices tsid w)) w)
    as (deleted & appended & E).
  rewrite E, filter_app.
  rewrite (filter_none _ (if appended then _ else [])).
  - rewrite app_nil_r. destruct deleted; [|reflexivity].
    apply filter_filter_implied. intros r Hr.
    destruct (where_clause (delete_query_of qid self clk tsid) r) eqn:Ew;
      [|reflexivity].
    apply where_restricted_all in Ew. rewrite Ew in Hr. discriminate.
  - intros r Hr. destruct appended; [|destruct Hr].
    apply (consensus_price_df_row qid self tsid columns clk) in Hr.
    destruct Hr as (Hr & _). now rewrite Hr.
Qed.

Lemma validator_frame_tsid qid self clk db tsid w w' t :
  validator qid self clk db tsid w = Ok w' ->
  t <> tsid ->
  query_all_tsid_prices t w' = query_all_tsid_prices t w.
Proof.
  intros Hrun Hne. unfold query_all_tsid_prices.
  rewrite <- (filter_filter_implied
                (fun r => (source_id r =? t)%string
                          && (source r =? "tsid")%string)
                (fun r => negb (where_clause
                                  (delete_all (qid "pySecMaster_Consensus")
                                     tsid) r))
                (rows w')).
  - rewrite (validator_frame qid self clk db tsid w w' Hrun).
    apply filter_filter_implied.
    intros r Hr. apply negb_true_iff.
    destruct (where_clause _ r) eqn:Ew; [|reflexivity].
    apply where_all_fields in Ew. destruct Ew as (Ew & _).
    apply andb_true_iff in Hr, Ew. destruct Hr as [Hr _], Ew as [Ew _].
    apply String.eqb_eq in Hr, Ew. congruence.
  - intros r Hr. apply negb_true_iff.
    destruct (where_clause _ r) eqn:Ew; [|reflexivity].
    apply where_all_fields in Ew. destruct Ew as (Ew & _).
    apply andb_true_iff in Hr, Ew. destruct Hr as [Hr _], Ew as [Ew _].
    apply String.eqb_eq in Hr, Ew. congruence.
Qed.

(** X6.  A run of [validator] never deletes or adds a row that is not a
    consensus row of its own tsid: the rows the unrestricted delete of
    the tsid does not select are after the run the ones before it, in
    the same order.  So the rows of every other tsid, and the rows the
    vendors reported for this tsid, are as they were. *)
Theorem X6_run_touches_consensus_rows_only :
  forall qid self clk db tsid w w',
    validator qid self clk db tsid w = Ok w' ->
    filter (fun r => negb (where_clause
                             (delete_all (qid "pySecMaster_Consensus") tsid) r))
           (rows w')
    = filter (fun r => negb (where_clause
                               (delete_all (qid "pySecMaster_Consensus") tsid)
                               r))
             (rows w)
    /\ (forall t, t <> tsid ->
                  query_all_tsid_prices t w' = query_all_tsid_prices t w)
    /\ filter (fun r => negb (data_vendor_id r =? qid "pySecMaster_Consensus"))
              (query_all_tsid_prices tsid w')
       = filter (fun r => negb (data_vendor_id r
                                =? qid "pySecMaster_Consensus"))
                (query_all_tsid_prices tsid w).
Proof.
  intros qid self clk db tsid w w' Hrun.
  pose proof (validator_frame qid self clk db tsid w w' Hrun) as Hframe.
  split; [exact Hframe|]. split.
  - intros t Hne. exact (validator_frame_tsid qid self clk db tsid w w' t
                           Hrun Hne).
  - assert (G : forall l,
               filter (fun r => negb (data_vendor_id r
                                      =? qid "pySecMaster_Consensus"))
                      (filter (fun r => (source_id r =? tsid)%string
                                        && (source r =? "tsid")%string) l)
               = filter (fun r => (source_id r =? tsid)%string
                                  && (source r =? "tsid")%string)
                   (filter (fun r => negb (where_clause
                                             (delete_all
                                                (qid "pySecMaster_Consensus")
                                                tsid) r)) l)).
    { intros l. induction l as [|r l IH]; simpl; [reflexivity|].
      unfold where_clause at 1. simpl. rewrite andb_true_r.
      destruct ((source_id r =? tsid)%string && (source r =? "tsid")%string)
        eqn:Et; simpl.
      - destruct (data_vendor_id r =? qid "pySecMaster_Consensus"); simpl.
        + exact IH.
        + rewrite Et. now rewrite IH.
      - rewrite Et. exact IH. }
    unfold query_all_tsid_prices. rewrite !G. now rewrite Hframe.
Qed.

(** The sample table after a run whose third delete goes through: the
    two vendor rows are the first two rows still. *)
Lemma X6_witness :
  filter (fun r => negb (data_vendor_id r =? 15))
         (query_all_tsid_prices "AAPL.Q.0"
            (sample_run sample_clock third_time sample_world_prior))
  = [sample_row 1 5 (Some 10); sample_row 2 5 (Some 11)].
Proof.
  apply (proj2 (proj2 (X6_run_touches_consensus_rows_only
                         sample_vendor_id sample_self sample_clock third_time
                         "AAPL.Q.0" sample_world_prior
                         (sample_run sample_clock third_time
                            sample_world_prior)
                         eq_refl))).
Defined.

(** What a run leaves of its tsid depends on what it read of it. *)
Lemma validator_local qid self clk db tsid w w0 w' w0' :
  validator qid self clk db tsid w = Ok w' ->
  validator qid self clk db tsid w0 = Ok w0' ->
  query_all_tsid_prices tsid w = query_all_tsid_prices tsid w0 ->
  query_all_tsid_prices tsid w' = query_all_tsid_prices tsid w0'.
Proof.
  unfold validator.
  destruct (table_columns (table self)) as [columns|]; [|discriminate].
  intros H H0 Hread. injection H as <-. injection H0 as <-.
  rewrite <- Hread.
  destruct (write_back_rows_uniform qid self clk db tsid
              (query_all_tsid_prices tsid w)
              (consensus_price_df qid self clk tsid columns
                 (query_all_tsid_prices tsid w)))
    as (deleted & appended & _ & E).
  unfold query_all_tsid_prices at 1 4. rewrite !E, !filter_app.
  f_equal. destruct deleted.
  - rewrite !(filter_comm
                (fun r => (source_id r =? tsid)%string
                          && (source r =? "tsid")%string)).
    fold (query_all_tsid_prices tsid w) (query_all_tsid_prices tsid w0).
    now rewrite Hread.
  - exact Hread.
Qed.

(** X7.  Runs for different tsids do not interfere.  Run for [t1] and
    [t2] in either order, with the same clock readings and the same
    answers of the database for each, the rows stored for every tsid are
    the same at the end. *)
Theorem X7_runs_for_distinct_tsids_commute :
  forall qid self clk1 clk2 db1 db2 t1 t2 w wa wab wb wba,
    t1 <> t2 ->
    validator qid self clk1 db1 t1 w = Ok wa ->
    validator qid self clk2 db2 t2 wa = Ok wab ->
    validator qid self clk2 db2 t2 w = Ok wb ->
    validator qid self clk1 db1 t1 wb = Ok wba ->
    forall t, query_all_tsid_prices t wab = query_all_tsid_prices t wba.
Proof.
  intros qid self clk1 clk2 db1 db2 t1 t2 w wa wab wb wba
         Hne Ha Hab Hb Hba t.
  assert (Hne' : t2 <> t1) by congruence.
  destruct (String.string_dec t t1) as [->|H1];
    [|destruct (String.string_dec t t2) as [->|H2]].
  - (* the rows of [t1]: the run for [t2] passes them by *)
    rewrite (validator_frame_tsid qid self clk2 db2 t2 wa wab t1 Hab Hne).
    apply (validator_local qid self clk1 db1 t1 w wb wa wba Ha Hba).
    symmetry.
    exact (validator_frame_tsid qid self clk2 db2 t2 w wb t1 Hb Hne).
  - rewrite (validator_frame_tsid qid self clk1 db1 t1 wb wba t2 Hba Hne').
    apply (validator_local qid self clk2 db2 t2 wa w wab wb Hab Hb).
    exact (validator_frame_tsid qid self clk1 db1 t1 w wa t2 Ha Hne').
  - rewrite (validator_frame_tsid qid self clk2 db2 t2 wa wab t Hab H2).
    rewrite (validator_frame_tsid qid self clk1 db1 t1 w wa t Ha H1).
    rewrite (validator_frame_tsid qid self clk1 db1 t1 wb wba t Hba H1).
    now rewrite (validator_frame_tsid qid self clk2 db2 t2 w wb t Hb H2).
Qed.

(** [AAPL.Q.0] first (third delete through) and [MSFT.Q.0] second (no
    consensus row yet), or the other way round. *)
Lemma X7_witness :
  query_all_tsid_prices "MSFT.Q.0"
    (sample_run_for "MSFT.Q.0" sample_clock_later always_fails
       (sample_run_for "AAPL.Q.0" sample_clock third_time sample_world_two))
  = query_all_tsid_prices "MSFT.Q.0"
      (sample_run_for "AAPL.Q.0" sample_clock third_time
         (sample_run_for "MSFT.Q.0" sample_clock_later always_fails
            sample_world_two)).
Proof.
  apply (X7_runs_for_distinct_tsids_commute
           sample_vendor_id sample_self sample_clock sample_clock_later
           third_time always_fails "AAPL.Q.0" "MSFT.Q.0" sample_world_two
           (sample_run_for "AAPL.Q.0" sample_clock third_time sample_world_two)
           (sample_run_for "MSFT.Q.0" sample_clock_later always_fails
              (sample_run_for "AAPL.Q.0" sample_clock third_time
                 sample_world_two))
           (sample_run_for "MSFT.Q.0" sample_clock_later always_fails
              sample_world_two)
           (sample_run_for "AAPL.Q.0" sample_clock third_time
              (sample_run_for "MSFT.Q.0" sample_clock_later always_fails
                 sample_world_two))).
  - discriminate.
  - reflexivity.
  - reflexivity.
  - reflexivity.
  - reflexivity.
Defined.

(** X8.  After a run that got its delete through (or had no consensus
    row to delete), the rows its delete selects are, in the table, the
    rows of [consensus_price_df] and nothing else when the append went
    through, and none when it did not: the append is not tried again.
    The rows of [consensus_price_df] carry pairwise different dates. *)
Theorem X8_replaced_rows_are_the_computed_rows :
  forall qid self clk db tsid w w' columns,
    table_columns (table self) = Ok columns ->
    validator qid self clk db tsid w = Ok w' ->
    (In (qid "pySecMaster_Consensus")
        (unique_sources (query_all_tsid_prices tsid w)) ->
     exists j, (j < 5)%nat /\ delete_succeeds db j = true) ->
    let df := consensus_price_df qid self clk tsid columns
                (query_all_tsid_prices tsid w) in
    filter (where_clause (delete_query_of qid self clk tsid)) (rows w')
    = (if append_succeeds db then df else [])
    /\ NoDup (map date df).
Proof.
  intros qid self clk db tsid w w' columns Hcols Hrun Hdel df.
  rewrite (validator_Ok qid self clk db tsid w columns Hcols) in Hrun.
  injection Hrun as <-. fold df.
  set (q := delete_query_of qid self clk tsid).
  assert (Hdf : filter (where_clause q) df = df).
  { apply filter_all. intros r Hr.
    now apply (consensus_price_df_selected qid self clk tsid columns
                 (query_all_tsid_prices tsid w)). }
  assert (Hgone : forall l,
             filter (where_clause q)
                    (filter (fun r => negb (where_clause q r)) l) = []).
  { intros l. apply filter_none. intros r Hr.
    apply filter_In in Hr. destruct Hr as [_ Hr].
    now apply negb_true_iff. }
  split.
  - unfold write_back.
    destruct (in_list _ (unique_sources (query_all_tsid_prices tsid w)))
      eqn:Ein.
    + apply in_list_In in Ein. destruct (Hdel Ein) as (j & Hj & Hs).
      fold q.
      destruct (retry_cases db q df w)
        as [[Hall _]|(j' & _ & _ & _ & E)].
      * rewrite (Hall j Hj) in Hs. discriminate.
      * rewrite E. simpl. destruct (append_succeeds db).
        -- now rewrite filter_app, Hgone, Hdf.
        -- apply Hgone.
    + apply in_list_false in Ein. simpl.
      assert (Hnone : filter (where_clause q) (rows w) = []).
      { apply filter_none. intros r Hr.
        destruct (where_clause q r) eqn:Ew; [|reflexivity].
        exfalso. apply Ein. apply where_restricted_all in Ew.
        apply where_all_fields in Ew. destruct Ew as (Ht & <-).
        unfold unique_sources. apply unique_In, in_map.
        unfold query_all_tsid_prices. apply filter_In. auto. }
      destruct (append_succeeds db).
      * now rewrite filter_app, Hnone, Hdf.
      * exact Hnone.
  - unfold df. rewrite consensus_price_df_dates. unfold unique_dates.
    destruct (truthy (period self)).
    + apply NoDup_filter, unique_NoDup.
    + apply unique_NoDup.
Qed.

(** A period of 30 days at day 100, third delete through: of the two
    consensus rows of the earlier run, the one of day 90 is replaced. *)
Lemma X8_witness :
  exists w',
    validator sample_vendor_id sample_self_window sample_clock third_time
      "AAPL.Q.0" sample_world_window = Ok w'
    /\ map date
         (filter (where_clause (delete_query_of sample_vendor_id
                                  sample_self_window sample_clock "AAPL.Q.0"))
                 (rows w'))
       = [timedelta_days 90].
Proof.
  eexists. split; [reflexivity|].
  refine (eq_trans
            (f_equal (map date)
               (proj1 (X8_replaced_rows_are_the_computed_rows
                         sample_vendor_id sample_self_window sample_clock
                         third_time "AAPL.Q.0" sample_world_window _
                         ["open"; "high"; "low"; "close"; "volume";
                          "ex_dividend"; "split_ratio"]
                         eq_refl eq_refl _))) _).
  - intros _. exists 2%nat. split; [lia | reflexivity].
  - reflexivity.
Defined.

Lemma filter_map_swap {A B} (p : B -> bool) (f : A -> B) l :
  filter p (map f l) = map f (filter (fun x => p (f x)) l).
Proof.
  induction l as [|x r IH]; simpl; [reflexivity|].
  destruct (p (f x)); simpl; now rewrite IH.
Qed.

(** X9.  A run over a trailing period computes, for the dates of its
    window, the rows a run over the whole history computes: with a
    period of [n] days, [n] not 0, [consensus_price_df] is the
    [consensus_price_df] of the same instance without period, cut down
    to the rows dated after [now - n days]. *)
Theorem X9_window_agrees_with_full_run :
  forall qid tbl ws excl n clk tsid columns df,
    n <> 0 ->
    consensus_price_df qid (mk_self tbl (Some n) ws excl) clk tsid columns df
    = filter (fun r => date r >? now_beg clk - timedelta_days n)
        (consensus_price_df qid (mk_self tbl None ws excl) clk tsid columns
           df).
Proof.
  intros qid tbl ws excl n clk tsid columns df Hn.
  unfold consensus_price_df, unique_dates, beg_date. simpl.
  apply Z.eqb_neq in Hn. rewrite Hn. simpl.
  now rewrite filter_map_swap.
Qed.

Lemma X9_witness :
  map date
    (consensus_price_df sample_vendor_id sample_self_window sample_clock
       "AAPL.Q.0" ["open"; "close"]
       (query_all_tsid_prices "AAPL.Q.0" sample_world_window))
  = [timedelta_days 90].
Proof.
  unfold sample_self_window, init.
  rewrite (X9_window_agrees_with_full_run sample_vendor_id "daily_prices"
             example_weights
             (map sample_vendor_id ["pySecMaster_Consensus"]) 30).
  - reflexivity.
  - discriminate.
Defined.

(** * The caller *)

Lemma collect_intervals_spec acc download_list :
  (acc = [] \/ acc = ["daily_prices"]) ->
  match collect_intervals acc download_list with
  | CrossValidated tables =>
      (forall i, In i download_list -> i = "daily" \/ i = "minute")
      /\ tables = (if existsb (String.eqb "daily") download_list
                   then ["daily_prices"] else acc)
  | SystemError i =>
      i <> "daily" /\ i <> "minute"
      /\ exists before after,
          download_list = before ++ i :: after
          /\ forall x, In x before -> x = "daily" \/ x = "minute"
  end.
Proof.
  revert acc. induction download_list as [|i rest IH]; intros acc Hacc;
    simpl.
  - split; [intros i [] | reflexivity].
  - destruct (String.eqb_spec i "daily") as [->|Hd].
    + assert (Hacc' : set_true "daily_prices" acc = ["daily_prices"])
        by (destruct Hacc as [->| ->]; reflexivity).
      rewrite Hacc'. specialize (IH ["daily_prices"] (or_intror eq_refl)).
      destruct (collect_intervals ["daily_prices"] rest) as [tables|j].
      * destruct IH as (Hall & Ht). split.
        -- intros x [<-|Hx]; [now left | now apply Hall].
        -- rewrite Ht. simpl. now destruct (existsb _ rest).
      * destruct IH as (H1 & H2 & before & after & E & Hb).
        split; [exact H1|]. split; [exact H2|].
        exists ("daily" :: before), after. split; [now rewrite E|].
        intros x [<-|Hx]; [now left | now apply Hb].
    + destruct (String.eqb_spec i "minute") as [->|Hm].
      * specialize (IH acc Hacc).
        destruct (collect_intervals acc rest) as [tables|j].
        -- destruct IH as (Hall & Ht). split.
           ++ intros x [<-|Hx]; [now right | now apply Hall].
           ++ exact Ht.
        -- destruct IH as (H1 & H2 & before & after & E & Hb).
           split; [exact H1|]. split; [exact H2|].
           exists ("minute" :: before), after. split; [now rewrite E|].
           intros x [<-|Hx]; [now right | now apply Hb].
      * split; [exact Hd|]. split; [exact Hm|].
        exists [], rest. split; [reflexivity | intros x []].
Qed.

(** X10.  [post_download_maintenance] raises [SystemError] for the first
    source whose interval is neither ['daily'] nor ['minute'], before
    any table is cross validated.  Otherwise it runs [CrossValidate] on
    ['daily_prices'], once, when some source is daily, and on no table
    when none is (minute prices are not cross validated); so the
    [validator] it starts never raises [NotImplementedError]. *)
Theorem X10_maintenance_validates_daily_prices_only :
  forall download_list,
    match post_download_maintenance download_list with
    | CrossValidated tables =>
        (forall i, In i download_list -> i = "daily" \/ i = "minute")
        /\ tables = (if existsb (String.eqb "daily") download_list
                     then ["daily_prices"] else [])
        /\ (forall table, In table tables ->
            forall qid period ws clk db tsid w,
            exists w',
              validator qid (init qid table period ws) clk db tsid w = Ok w')
    | SystemError i =>
        i <> "daily" /\ i <> "minute"
        /\ exists before after,
            download_list = before ++ i :: after
            /\ forall x, In x before -> x = "daily" \/ x = "minute"
    end.
Proof.
  intros download_list. unfold post_download_maintenance.
  pose proof (collect_intervals_spec [] download_list (or_introl eq_refl))
    as H.
  destruct (collect_intervals [] download_list) as [tables|i];
    [|exact H].
  destruct H as (Hall & Ht). split; [exact Hall|]. split; [exact Ht|].
  intros table Hin qid period ws clk db tsid w.
  assert (table = "daily_prices").
  { rewrite Ht in Hin. destruct (existsb _ download_list);
      [destruct Hin as [<-|[]]; reflexivity | destruct Hin]. }
  subst table. eexists. reflexivity.
Qed.

(** * One consensus row per date *)

Lemma NoDup_map_filter {A B} (f : A -> B) (p : A -> bool) l :
  NoDup (map f l) -> NoDup (map f (filter p l)).
Proof.
  induction l as [|x r IH]; simpl; intros H; [constructor|].
  inversion H as [|? ? Hnot Hr]; subst.
  destruct (p x); simpl; [|now apply IH].
  constructor; [|now apply IH].
  intros Hin. apply Hnot. apply in_map_iff in Hin.
  destruct Hin as (y & Ey & Hy). apply filter_In in Hy.
  rewrite <- Ey. apply in_map. tauto.
Qed.

(** Whatever a run does to the table, the consensus rows of its tsid are
    afterwards: the ones before, or the ones the delete spared followed
    by nothing or by [consensus_price_df]. *)
Lemma consensus_rows_after qid self clk db tsid w columns :
  let V := qid "pySecMaster_Consensus" in
  let T := query_all_tsid_prices tsid w in
  let df := consensus_price_df qid self clk tsid columns T in
  let w' := write_back qid self clk db tsid T df w in
  consensus_rows V tsid w' = consensus_rows V tsid w
  \/ exists appended : bool,
      consensus_rows V tsid w'
      = filter (fun r => negb (where_clause
                                 (delete_query_of qid self clk tsid) r))
               (consensus_rows V tsid w)
        ++ (if appended then df else []).
Proof.
  intros V T df w'.
  assert (Hdf : filter (where_clause (delete_all V tsid)) df = df).
  { apply filter_all. intros r Hr.
    now apply (consensus_price_df_row qid self tsid columns clk T) in Hr. }
  unfold w', write_back. fold V.
  destruct (in_list V (unique_sources T)) eqn:Ein.
  - destruct (retry_cases db (delete_query_of qid self clk tsid) df w)
      as [[_ E]|(j & _ & _ & _ & E)]; rewrite E.
    + now left.
    + right. exists (append_succeeds db). unfold consensus_rows. simpl.
      destruct (append_succeeds db).
      * now rewrite filter_app, Hdf, filter_comm.
      * now rewrite app_nil_r, filter_comm.
  - right. exists (append_succeeds db).
    apply in_list_false in Ein.
    assert (Hnone : consensus_rows V tsid w = []).
    { unfold consensus_rows. apply filter_none. intros r Hr.
      destruct (where_clause (delete_all V tsid) r) eqn:Ew; [|reflexivity].
      exfalso. apply Ein. apply where_all_fields in Ew.
      destruct Ew as (Ht & <-).
      unfold unique_sources. apply unique_In, in_map.
      unfold T, query_all_tsid_prices. apply filter_In. auto. }
    rewrite Hnone. unfold consensus_rows in *. simpl.
    destruct (append_succeeds db).
    + now rewrite filter_app, Hnone, Hdf.
    + exact Hnone.
Qed.

(** X13.  Delete before append keeps one consensus row per date.  When
    the consensus rows stored for a tsid carry pairwise different dates
    before a run of [validator], they do so after it, whether the
    deletes and the append go through or not. *)
Theorem X13_one_consensus_row_per_date :
  forall qid self clk db tsid w w',
    validator qid self clk db tsid w = Ok w' ->
    NoDup (map date (consensus_rows (qid "pySecMaster_Consensus") tsid w)) ->
    NoDup (map date (consensus_rows (qid "pySecMaster_Consensus") tsid w')).
Proof.
  intros qid self clk db tsid w w'. unfold validator.
  destruct (table_columns (table self)) as [columns|]; [|discriminate].
  intros H Hnd. injection H as <-.
  destruct (consensus_rows_after qid self clk db tsid w columns)
    as [E|(appended & E)]; rewrite E; [exact Hnd|].
  rewrite map_app. apply NoDup_app.
  - now apply NoDup_map_filter.
  - destruct appended; [|constructor].
    rewrite consensus_price_df_dates. unfold unique_dates.
    destruct (truthy (period self)).
    + apply NoDup_filter, unique_NoDup.
    + apply unique_NoDup.
  - intros d Hold Hnew. destruct appended; [|destruct Hnew].
    apply in_map_iff in Hold. destruct Hold as (r & <- & Hr).
    apply filter_In in Hr. destruct Hr as [Hr Hspared].
    apply negb_true_iff in Hspared.
    apply in_map_iff in Hnew. destruct Hnew as (r' & Ed & Hr').
    apply (consensus_price_df_selected qid self clk tsid columns) in Hr'.
    (* a stored consensus row with the date of a new row is deleted *)
    unfold consensus_rows in Hr. apply filter_In in Hr.
    destruct Hr as [_ Hall].
    revert Hspared Hr' Hall.
    unfold delete_query_of, where_clause, delete_all.
    destruct (truthy (period self)); simpl.
    + rewrite Ed, !andb_true_r. intros H1 H2 H3.
      apply andb_true_iff in H2. destruct H2 as [_ H2].
      rewrite H3, H2 in H1. discriminate.
    + intros H1 H2 H3. rewrite H3 in H1. discriminate.
Qed.

(** The sample table with a consensus row for day 50 and one for day
    90, after a run over the last 30 days. *)
Lemma X13_witness :
  NoDup (map date
           (consensus_rows 15 "AAPL.Q.0"
              (match validator sample_vendor_id sample_self_window
                       sample_clock third_time "AAPL.Q.0"
                       sample_world_window with
               | Ok w' => w'
               | NotImplementedError _ => sample_world_window
               end))).
Proof.
  apply (X13_one_consensus_row_per_date
           sample_vendor_id sample_self_window sample_clock third_time
           "AAPL.Q.0" sample_world_window _ eq_refl).
  repeat constructor; simpl; intuition discriminate.
Defined.
